(** * Retail promotions -> Shopify metafields: window computation, vendor
      aggregation and reconciliation

    A shallow embedding of [retail_promotions_to_shopify_metafields.py]:
    the window calculator, the vendor aggregator, the retried GraphQL
    client, the count primitives, product-scope resolution and the
    dry-run estimate, followed by the properties the design document
    states about them.

    Modelling conventions.
    - A [datetime.date] is its proleptic Gregorian ordinal, an integer
      number of days ([date.toordinal()]); adding a [timedelta(days=n)]
      is integer addition.  The development covers date arithmetic that
      stays inside the range of [datetime.date].
    - A Python [str] is a [string]; the case and whitespace functions
      below are those of Python on ASCII text.
    - [Optional[T]] is [option T]; a raised exception is the [Raise]
      branch of [result]. *)

From Stdlib Require Import ZArith Lia.
From stdpp Require Import base option list gmap strings.

Local Open Scope Z_scope.
#[local] Set Warnings "-register-all,-clear-no-such-hyp".
#[local] Set Default Proof Using "Type".

(** ** Python string helpers used by [normalize] *)

Module PyStr.

(** [str.isspace] on one ASCII character: TAB, LF, VT, FF, CR, the four
    separators 0x1c-0x1f, and the space. *)
Definition isspace (c : Ascii.ascii) : bool :=
  let n := Ascii.nat_of_ascii c in
  ((9 <=? n)%nat && (n <=? 13)%nat) || ((28 <=? n)%nat && (n <=? 32)%nat).

(** [str.lower] on one ASCII character. *)
Definition lower_ascii (c : Ascii.ascii) : Ascii.ascii :=
  let n := Ascii.nat_of_ascii c in
  if ((65 <=? n)%nat && (n <=? 90)%nat) then Ascii.ascii_of_nat (n + 32) else c.

Fixpoint lower (s : string) : string :=
  match s with
  | EmptyString => EmptyString
  | String c s' => String (lower_ascii c) (lower s')
  end.

Fixpoint lstrip (s : string) : string :=
  match s with
  | EmptyString => EmptyString
  | String c s' => if isspace c then lstrip s' else s
  end.

Definition rstrip (s : string) : string :=
  String.rev (lstrip (String.rev s)).

(** [s.strip()] *)
Definition strip (s : string) : string := rstrip (lstrip s).

(** [s.split()]: the maximal runs of non-whitespace characters.  [cur]
    is the word being read, if any. *)
Fixpoint split_go (cur : option string) (s : string) : list string :=
  match s with
  | EmptyString =>
      match cur with Some w => [String.rev w] | None => [] end
  | String c s' =>
      if isspace c
      then match cur with
           | Some w => String.rev w :: split_go None s'
           | None => split_go None s'
           end
      else split_go (Some (String c (default EmptyString cur))) s'
  end.

Definition split (s : string) : list string := split_go None s.

(** [sep.join(l)] *)
Definition join (sep : string) (l : list string) : string :=
  String.concat sep l.

End PyStr.

(** [normalize]: [" ".join((s or "").strip().lower().split())]. *)
Definition normalize (s : string) : string :=
  PyStr.join " " (PyStr.split (PyStr.lower (PyStr.strip s))).

(** ** Data models *)

Definition date := Z.

Record RetailPromoRow := mkRow {
  id : Z;
  vendor : string;
  collection_id : option string;
  entry_type : string;
  start_date : date;
  end_date : option date
}.

Record VendorPlan := mkPlan {
  plan_vendor : string;
  collection_ids : list string;
  sale_display_start : option date;
  sale_display_end : option date;
  pi_display_start : option date;
  pi_display_end : option date;
  sale_real_start : option date;
  sale_real_end : option date;
  pi_real_start : option date;
  pi_real_end : option date
}.

(** [VendorPlan(vendor=v)]: every bound is [None] and [__post_init__]
    installs a fresh empty list of collection ids. *)
Definition new_plan (v : string) : VendorPlan :=
  mkPlan v [] None None None None None None None None.

(** ** The reader's conversion of one database record *)

(** One record of the query.  The dates are what [to_date_only] made of
    the two date columns, and [raw_collection_id] is [str(...)] of the
    column when it is not NULL. *)
Record RawRecord := mkRaw {
  raw_id : Z;
  raw_vendor : option string;
  raw_collection_id : option string;
  raw_entry_type : option string;
  raw_start : option date;
  raw_end : option date
}.

(** The body of the loop of [fetch_active_today]: [None] is [continue]. *)
Definition read_record (r : RawRecord) : option RetailPromoRow :=
  let vendor := PyStr.strip (default "" (raw_vendor r)) in
  let collection_id :=
    match raw_collection_id r with
    | Some raw =>
        let cid := PyStr.strip raw in
        if decide (cid = "") then None else Some cid
    | None => None
    end in
  let entry_type := PyStr.strip (default "" (raw_entry_type r)) in
  match raw_start r with
  | Some s =>
      if decide (vendor = "") then None
      else if decide (entry_type = "") then None
      else Some (mkRow (raw_id r) vendor collection_id entry_type s (raw_end r))
  | None => None
  end.

Definition read_records (raw : list RawRecord) : list RetailPromoRow :=
  omap read_record raw.

(** ** Aggregation *)

(** [row.end_date or row.start_date]: a date is always truthy. *)
Definition end_or_start (r : RetailPromoRow) : date :=
  default (start_date r) (end_date r).

Definition compute_display_window (row : RetailPromoRow) (x y z : Z)
  : date * date :=
  let t := normalize (entry_type row) in
  if decide (t = "sale") then
    (start_date row - x, end_or_start row)
  else if decide (t = "price increase") then
    let end_display :=
      match end_date row with
      | Some e => e
      | None => start_date row + z
      end in
    (start_date row - y, end_display)
  else (start_date row, start_date row).

(** [d if cur is None else min(cur, d)] and its [max] twin. *)
Definition merge_min (cur : option date) (d : date) : option date :=
  Some (match cur with None => d | Some c => Z.min c d end).

Definition merge_max (cur : option date) (d : date) : option date :=
  Some (match cur with None => d | Some c => Z.max c d end).

(** [r.collection_id and r.collection_id not in w.collection_ids]
    guards the append: [None] and the empty string are falsy. *)
Definition add_collection_id (cid : option string) (ids : list string)
  : list string :=
  match cid with
  | Some c =>
      if decide (c = "") then ids
      else if decide (c ∈ ids) then ids else ids ++ [c]
  | None => ids
  end.

(** The body of the loop of [aggregate_by_vendor] on the plan [w] of the
    row's vendor. *)
Definition fold_row (x y z : Z) (w : VendorPlan) (r : RetailPromoRow)
  : VendorPlan :=
  let ids := add_collection_id (collection_id r) (collection_ids w) in
  let t := normalize (entry_type r) in
  let '(d_start, d_end) := compute_display_window r x y z in
  if decide (t = "sale") then
    let real_end := end_or_start r in
    mkPlan (plan_vendor w) ids
      (merge_min (sale_display_start w) d_start)
      (merge_max (sale_display_end w) d_end)
      (pi_display_start w) (pi_display_end w)
      (merge_min (sale_real_start w) (start_date r))
      (merge_max (sale_real_end w) real_end)
      (pi_real_start w) (pi_real_end w)
  else if decide (t = "price increase") then
    mkPlan (plan_vendor w) ids
      (sale_display_start w) (sale_display_end w)
      (merge_min (pi_display_start w) d_start)
      (merge_max (pi_display_end w) d_end)
      (sale_real_start w) (sale_real_end w)
      (merge_min (pi_real_start w) (start_date r))
      (match end_date r with
       | Some e => merge_max (pi_real_end w) e
       | None => pi_real_end w
       end)
  else
    mkPlan (plan_vendor w) ids
      (sale_display_start w) (sale_display_end w)
      (pi_display_start w) (pi_display_end w)
      (sale_real_start w) (sale_real_end w)
      (pi_real_start w) (pi_real_end w).

(** [by_vendor] is a Python dict: keys are compared as exact strings and
    [values()] lists them in insertion order, so it is kept as an
    association list in which an update stays in place and a new key goes
    last. *)
Fixpoint dict_get (d : list (string * VendorPlan)) (k : string)
  : option VendorPlan :=
  match d with
  | [] => None
  | (k', w) :: d' => if decide (k' = k) then Some w else dict_get d' k
  end.

Fixpoint dict_set (d : list (string * VendorPlan)) (k : string)
  (w : VendorPlan) : list (string * VendorPlan) :=
  match d with
  | [] => [(k, w)]
  | (k', w') :: d' =>
      if decide (k' = k) then (k, w) :: d' else (k', w') :: dict_set d' k w
  end.

Definition aggregate_step (x y z : Z) (by_vendor : list (string * VendorPlan))
  (r : RetailPromoRow) : list (string * VendorPlan) :=
  let v := vendor r in
  let w := default (new_plan v) (dict_get by_vendor v) in
  dict_set by_vendor v (fold_row x y z w r).

Definition aggregate_dict (rows : list RetailPromoRow) (x y z : Z)
  : list (string * VendorPlan) :=
  fold_left (aggregate_step x y z) rows [].

Definition aggregate_by_vendor (rows : list RetailPromoRow) (x y z : Z)
  : list VendorPlan :=
  (aggregate_dict rows x y z).*2.

(** ** The reconciler's per-category decision *)

Definition sale_should_exist (w : VendorPlan) (today : date) : bool :=
  match sale_display_start w, sale_display_end w with
  | Some s, Some e => (s <=? today) && (today <=? e)
  | _, _ => false
  end.

Definition pi_should_exist (w : VendorPlan) (today : date) : bool :=
  match pi_display_start w, pi_display_end w with
  | Some s, Some e => (s <=? today) && (today <=? e)
  | _, _ => false
  end.

(** ** Exceptions and remote answers *)

(** Parsed JSON, as [resp.json()] returns it: a dict is the list of its
    items (keys distinct), numbers are integers. *)
Inductive json :=
| JNull
| JBool (b : bool)
| JInt (n : Z)
| JStr (s : string)
| JArr (items : list json)
| JObj (fields : list (string * json)).

(** The exceptions the client code raises or lets through. *)
Inductive exn :=
| TransportError                       (* [requests] failed: network, timeout *)
| HTTPError (status : Z)               (* [resp.raise_for_status()] *)
| JSONDecodeError                      (* [resp.json()] on a body that is not JSON *)
| AttributeError                       (* [.get] on a value that is not a dict *)
| ConversionError                      (* [int(...)] refused its argument *)
| TemporaryShopifyError (status : Z) (text : string)
| GraphQLErrors (errors : json)        (* RuntimeError("GraphQL errors: ...") *)
| GraphQLFailedAfterRetries (last_err : option exn).

Inductive result (A : Type) :=
| Ok (a : A)
| Raise (e : exn).
Arguments Ok {A} a.
Arguments Raise {A} e.

#[global] Instance result_ret : MRet result := fun A a => Ok a.
#[global] Instance result_bind : MBind result := fun A B f m =>
  match m with
  | Ok a => f a
  | Raise e => Raise e
  end.

Record response := mkResponse {
  status_code : Z;
  text : string;
  json_body : option json      (* [None]: the body does not parse *)
}.

(** What one [requests.post] / [requests.get] call does. *)
Inductive http_outcome :=
| HttpRaises
| HttpResponse (r : response).

(** [resp.raise_for_status()] *)
Definition raise_for_status (r : response) : result unit :=
  if (400 <=? status_code r) && (status_code r <? 600)
  then Raise (HTTPError (status_code r)) else Ok tt.

(** [resp.json()] *)
Definition resp_json (r : response) : result json :=
  match json_body r with
  | Some v => Ok v
  | None => Raise JSONDecodeError
  end.

Fixpoint fields_get (fields : list (string * json)) (k : string)
  : option json :=
  match fields with
  | [] => None
  | (k', v) :: rest => if decide (k' = k) then Some v else fields_get rest k
  end.

(** [data.get(k, dflt)]: an [AttributeError] unless [data] is a dict. *)
Definition json_get (data : json) (k : string) (dflt : json) : result json :=
  match data with
  | JObj fields => Ok (default dflt (fields_get fields k))
  | _ => Raise AttributeError
  end.

(** Python truthiness of a parsed JSON value. *)
Definition truthy (v : json) : bool :=
  match v with
  | JNull => false
  | JBool b => b
  | JInt n => negb (n =? 0)
  | JStr s => negb (bool_decide (s = ""))
  | JArr items => negb (bool_decide (items = []))
  | JObj fields => match fields with [] => false | _ => true end
  end.

(** ** [ShopifyClient.graphql] *)

(** What the call did: each POST with its attempt number, and each
    [time.sleep], in tenths of a second. *)
Inductive event :=
| EvPost (attempt : nat)
| EvSleep (tenths : Z).

Definition transient_status (s : Z) : bool :=
  bool_decide (s ∈ [429; 500; 502; 503; 504]).

(** The statements of the [try] block after a response with a status
    outside the transient set has arrived. *)
Definition graphql_checked (r : response) : result json :=
  _ ← raise_for_status r;
  data ← resp_json r;
  errors ← json_get data "errors" JNull;
  if truthy errors then Raise (GraphQLErrors errors) else Ok data.

(** One turn of the [for] loop: either [return data], or the next
    iteration is reached with [last_err] set after a sleep. *)
Inductive attempt_result :=
| Done (data : json)
| Again (last_err : exn) (sleep : Z).

Definition graphql_attempt (attempt : nat) (o : http_outcome)
  : attempt_result :=
  match o with
  | HttpRaises =>
      (* except Exception as e *)
      Again TransportError (10 + Z.of_nat attempt * 10)
  | HttpResponse r =>
      if transient_status (status_code r) then
        (* ...; continue *)
        Again (TemporaryShopifyError (status_code r) (text r))
              (12 + Z.of_nat attempt * 10)
      else
        match graphql_checked r with
        | Ok data => Done data
        | Raise e =>
            (* except Exception as e *)
            Again e (10 + Z.of_nat attempt * 10)
        end
  end.

(** [net n] is what the [n]-th POST of this call meets. *)
Fixpoint graphql_loop (net : nat → http_outcome) (attempt remaining : nat)
  (last_err : option exn) : result json * list event :=
  match remaining with
  | O => (Raise (GraphQLFailedAfterRetries last_err), [])
  | S k =>
      match graphql_attempt attempt (net attempt) with
      | Done data => (Ok data, [EvPost attempt])
      | Again e t =>
          let '(res, evs) := graphql_loop net (S attempt) k (Some e) in
          (res, EvPost attempt :: EvSleep t :: evs)
      end
  end.

Definition graphql (net : nat → http_outcome) (retries : nat)
  : result json * list event :=
  graphql_loop net 0 retries None.

(** The number of POSTs among the events of a call. *)
Definition is_post (e : event) : bool :=
  match e with EvPost _ => true | EvSleep _ => false end.

Definition posts (evs : list event) : nat :=
  length (List.filter is_post evs).

(** ** The count primitives *)

(** The REST count endpoint [products/count.json], by its query
    parameter ([quote_plus] encodes it one-to-one). *)
Inductive count_request :=
| CountInCollection (numeric_id : string)
| CountByVendor (vendor_name : string).

Definition slash : Ascii.ascii := Ascii.ascii_of_nat 47.

(** The text after the last ["/"], when there is one. *)
Fixpoint after_last_slash (s : string) : option string :=
  match s with
  | EmptyString => None
  | String c s' =>
      match after_last_slash s' with
      | Some t => Some t
      | None => if decide (c = slash) then Some s' else None
      end
  end.

(** [collection_id.rsplit("/", 1)[-1]] *)
Definition rsplit_last (s : string) : string :=
  default s (after_last_slash s).

(** The REST endpoint wants the numeric id of a [gid://] identifier. *)
Definition numeric_id_of (collection_id : string) : string :=
  if String.prefix "gid://" collection_id
  then rsplit_last collection_id else collection_id.

Section Counts.

(** Python's [int] on a [str]: the integer it reads, [None] when it
    raises [ValueError]. *)
Variable int_of_str : string → option Z.

(** [int(v)] on a parsed JSON value; [None] when it raises. *)
Definition py_int (v : json) : option Z :=
  match v with
  | JInt n => Some n
  | JBool b => Some (if b then 1 else 0)
  | JStr s => int_of_str s
  | JNull | JArr _ | JObj _ => None      (* TypeError *)
  end.

(** The [try] block shared by both primitives, after [requests.get]. *)
Definition count_checked (o : http_outcome) : result Z :=
  match o with
  | HttpRaises => Raise TransportError
  | HttpResponse r =>
      _ ← raise_for_status r;
      data ← resp_json r;
      c ← json_get data "count" (JInt 0);
      match py_int c with
      | Some n => Ok n
      | None => Raise ConversionError
      end
  end.

(** [try: ... return int(...)  except Exception: return 0] *)
Definition count_or_zero (o : http_outcome) : Z :=
  match count_checked o with
  | Ok n => n
  | Raise _ => 0
  end.

(** The remote: what a GET meets, given the requests sent so far. *)
Variable http_get : list count_request → count_request → http_outcome.

(** A computation that sends count requests: it extends the list of
    the requests sent so far. *)
Definition Http (A : Type) : Type :=
  list count_request → A * list count_request.

Definition http_ret {A} (a : A) : Http A := λ sent, (a, sent).

Definition http_bind {A B} (m : Http A) (f : A → Http B) : Http B :=
  λ sent, let '(a, sent') := m sent in f a sent'.

Definition send (req : count_request) : Http http_outcome :=
  λ sent, (http_get sent req, sent ++ [req]).

Definition rest_count_products_in_collection (collection_id : string)
  : Http Z :=
  http_bind (send (CountInCollection (numeric_id_of collection_id)))
            (λ o, http_ret (count_or_zero o)).

Definition rest_count_products_by_vendor (vendor_name : string) : Http Z :=
  http_bind (send (CountByVendor vendor_name))
            (λ o, http_ret (count_or_zero o)).

(** [sum(shop.rest_count_products_in_collection(cid) for cid in ids)] *)
Fixpoint sum_counts (ids : list string) (acc : Z) : Http Z :=
  match ids with
  | [] => http_ret acc
  | cid :: rest =>
      http_bind (rest_count_products_in_collection cid)
                (λ n, sum_counts rest (acc + n))
  end.

(** ** The dry-run branch of [main] *)

Record vendor_result := mkResult {
  res_vendor : string;
  used_collection_id : bool;
  res_collection_ids : list string;
  products_found : Z;
  will_write : Z;
  will_delete : Z
}.

Definition has_collection_id (w : VendorPlan) : bool :=
  match collection_ids w with [] => false | _ => true end.

Definition cache_key (w : VendorPlan) : string :=
  plan_vendor w +:+ "::" +:+
  (if has_collection_id w then "collection_id" else "vendor") +:+ "::" +:+
  PyStr.join "," (collection_ids w).

(** The count of the resolved scope when [DRY_RUN] is set. *)
Definition dry_run_count (w : VendorPlan) : Http Z :=
  if has_collection_id w
  then sum_counts (collection_ids w) 0
  else rest_count_products_by_vendor (plan_vendor w).

(** The state of the vendor loop.  [fetched_keys] is not a variable of
    the program: it records, in order, the cache keys for which the
    count primitives were called. *)
Record run_state := mkState {
  product_cache : gmap string Z;
  sent_requests : list count_request;
  vendor_results : list vendor_result;
  fetched_keys : list string
}.

Definition init_state : run_state := mkState ∅ [] [] [].

(** [(sale_should_exist and w.sale_real_start and w.sale_real_end) or
    (pi_should_exist and w.pi_real_start)], as a truth value. *)
Definition payload_will_exist (w : VendorPlan) (today : date) : bool :=
  (sale_should_exist w today
     && bool_decide (is_Some (sale_real_start w))
     && bool_decide (is_Some (sale_real_end w)))
  || (pi_should_exist w today && bool_decide (is_Some (pi_real_start w))).

Definition keys_will_delete (w : VendorPlan) (today : date) : bool :=
  negb (sale_should_exist w today) || negb (pi_should_exist w today).

(** One turn of [for w in vendor_plans] under [DRY_RUN]. *)
Definition dry_run_vendor (today : date) (st : run_state) (w : VendorPlan)
  : run_state :=
  let key := cache_key w in
  let '(product_count, cache, sent, fetched) :=
    match product_cache st !! key with
    | Some n => (n, product_cache st, sent_requests st, fetched_keys st)
    | None =>
        let '(n, sent) := dry_run_count w (sent_requests st) in
        (n, <[key := n]> (product_cache st), sent, fetched_keys st ++ [key])
    end in
  let w_write := if payload_will_exist w today then product_count else 0 in
  let w_delete := if keys_will_delete w today then product_count else 0 in
  mkState cache sent
    (vendor_results st ++
       [mkResult (plan_vendor w) (has_collection_id w) (collection_ids w)
                 product_count w_write w_delete])
    fetched.

Definition dry_run (today : date) (plans : list VendorPlan) : run_state :=
  fold_left (dry_run_vendor today) plans init_state.

End Counts.

(** ** Listings and product-scope resolution outside dry-run *)

Record product_node := mkNode {
  node_id : string;
  node_vendor : string
}.

(** The answers of the remote to the successive [graphql] calls of one
    listing loop: a call raises, or it returns a page whose
    [hasNextPage] is false ([PLast]) or true ([PMore], with the answers
    to the calls that follow from its [endCursor]). *)
Inductive product_pages :=
| PRaises (e : exn)
| PLast (nodes : list product_node)
| PMore (nodes : list product_node) (rest : product_pages).

(** The same for the products of a collection; [CNull] is an answer
    whose [collection] field is null. *)
Inductive collection_pages :=
| CRaises (e : exn)
| CNull
| CLast (node_ids : list string)
| CMore (node_ids : list string) (rest : collection_pages).

Definition to_collection_gid (collection_id : string) : string :=
  let cid := PyStr.strip collection_id in
  if String.prefix "gid://" cid then cid
  else "gid://shopify/Collection/" +:+ cid.

Definition dquote : string := String (Ascii.ascii_of_nat 34) EmptyString.

(** The search string [vendor:"<vendor>"]. *)
Definition vendor_query (vendor_name : string) : string :=
  "vendor:" +:+ dquote +:+ vendor_name +:+ dquote.

Section Scope.

(** The remote: its answers to the listing of a collection, by gid, and
    to a product search, by search string. *)
Variable collection_listing : string → collection_pages.
Variable products_listing : string → product_pages.

Fixpoint collection_loop (pages : collection_pages) (ids : list string)
  : result (list string) :=
  match pages with
  | CRaises e => Raise e
  | CNull => Ok ids                       (* break *)
  | CLast nodes => Ok (ids ++ nodes)
  | CMore nodes rest => collection_loop rest (ids ++ nodes)
  end.

Definition list_product_ids_in_collection (collection_id : string)
  : result (list string) :=
  collection_loop (collection_listing (to_collection_gid collection_id)) [].

(** The ids of the nodes of a page whose vendor normalizes to [target]. *)
Definition matching_ids (target : string) (nodes : list product_node)
  : list string :=
  node_id <$> filter (λ n, normalize (node_vendor n) = target) nodes.

Fixpoint vendor_loop (target : string) (pages : product_pages)
  (ids : list string) : result (list string) :=
  match pages with
  | PRaises e => Raise e
  | PLast nodes => Ok (ids ++ matching_ids target nodes)
  | PMore nodes rest =>
      vendor_loop target rest (ids ++ matching_ids target nodes)
  end.

Definition list_product_ids_by_vendor (vendor_name : string)
  : result (list string) :=
  vendor_loop (normalize vendor_name)
              (products_listing (vendor_query vendor_name)) [].

(** [for pid in ids: if pid not in seen: seen.add(pid);
    product_ids.append(pid)] *)
Fixpoint add_unseen (ids : list string) (seen : gset string)
  (product_ids : list string) : gset string * list string :=
  match ids with
  | [] => (seen, product_ids)
  | pid :: rest =>
      if decide (pid ∈ seen) then add_unseen rest seen product_ids
      else add_unseen rest ({[pid]} ∪ seen) (product_ids ++ [pid])
  end.

Fixpoint collect_from_collections (cids : list string) (seen : gset string)
  (product_ids : list string) : result (list string) :=
  match cids with
  | [] => Ok product_ids
  | cid :: rest =>
      ids ← list_product_ids_in_collection cid;
      let '(seen', product_ids') := add_unseen ids seen product_ids in
      collect_from_collections rest seen' product_ids'
  end.

(** The products a vendor's metafields are written to and deleted
    from: [product_ids] of [main]. *)
Definition scope_product_ids (w : VendorPlan) : result (list string) :=
  if has_collection_id w
  then collect_from_collections (collection_ids w) ∅ []
  else list_product_ids_by_vendor (plan_vendor w).



End Scope.

(** ** The per-product payload of [main] outside dry-run *)

Definition MF_NAMESPACE : string := "custom".
Definition MF_SALE_START : string := "promo_sale_start_date".
Definition MF_SALE_END : string := "promo_sale_end_date".
Definition MF_PI_START : string := "promo_pi_start_date".
Definition MF_PI_END : string := "promo_pi_end_date".

(** The dict of [build_date_metafield]: [ownerId], [namespace], [key],
    [type] and [value]; the value is kept as the date whose
    [isoformat()] the code sends. *)
Record metafield := mkMetafield {
  mf_owner : string;
  mf_namespace : string;
  mf_key : string;
  mf_type : string;
  mf_value : date
}.

Definition build_date_metafield (owner_id namespace key : string) (d : date)
  : metafield :=
  mkMetafield owner_id namespace key "date" d.

(** [to_set] of [main] for the product [pid]. *)
Definition to_set (w : VendorPlan) (today : date) (pid : string)
  : list metafield :=
  (if sale_should_exist w today then
     match sale_real_start w, sale_real_end w with
     | Some s, Some e =>
         [build_date_metafield pid MF_NAMESPACE MF_SALE_START s;
          build_date_metafield pid MF_NAMESPACE MF_SALE_END e]
     | _, _ => []
     end
   else [])
  ++
  (if pi_should_exist w today then
     match pi_real_start w with
     | Some s =>
         build_date_metafield pid MF_NAMESPACE MF_PI_START s ::
         match pi_real_end w with
         | Some e => [build_date_metafield pid MF_NAMESPACE MF_PI_END e]
         | None => []
         end
     | None => []
     end
   else []).

(** [keys_to_check] of [main]. *)
Definition keys_to_check (w : VendorPlan) (today : date) : list string :=
  (if sale_should_exist w today then [] else [MF_SALE_START; MF_SALE_END])
  ++ (if pi_should_exist w today then [] else [MF_PI_START; MF_PI_END]).

(** The real bound of a plan that a metafield key publishes. *)
Definition real_bound (w : VendorPlan) (key : string) : option date :=
  if decide (key = MF_SALE_START) then sale_real_start w
  else if decide (key = MF_SALE_END) then sale_real_end w
  else if decide (key = MF_PI_START) then pi_real_start w
  else if decide (key = MF_PI_END) then pi_real_end w
  else None.

(** ** Vocabulary of the statements *)

(** The rows that carry the vendor string [v], in their order, and the
    fold of a list of rows into one plan. *)
Definition rows_of (v : string) (rows : list RetailPromoRow)
  : list RetailPromoRow :=
  filter (λ r, vendor r = v) rows.

Definition fold_rows (x y z : Z) (rows : list RetailPromoRow)
  (w : VendorPlan) : VendorPlan :=
  fold_left (fold_row x y z) rows w.

(** Two plans with the same vendor, the same eight bounds and the same
    collection ids up to their order. *)
Definition plan_equiv (p q : VendorPlan) : Prop :=
  plan_vendor p = plan_vendor q ∧
  collection_ids p ≡ₚ collection_ids q ∧
  sale_display_start p = sale_display_start q ∧
  sale_display_end p = sale_display_end q ∧
  pi_display_start p = pi_display_start q ∧
  pi_display_end p = pi_display_end q ∧
  sale_real_start p = sale_real_start q ∧
  sale_real_end p = sale_real_end q ∧
  pi_real_start p = pi_real_start q ∧
  pi_real_end p = pi_real_end q.

(** The entry type of a row, as the aggregator classifies it. *)
Definition is_sale (r : RetailPromoRow) : Prop :=
  normalize (entry_type r) = "sale".

Definition is_price_increase (r : RetailPromoRow) : Prop :=
  normalize (entry_type r) = "price increase".

(** ** Sample data

    Dates are ordinals: 739047 is 2024-06-10, 739057 is 2024-06-20. *)

Definition sale_row : RetailPromoRow :=
  mkRow 1 "Acme" (Some "11") "Sale" 739047 (Some 739057).

Definition open_sale_row : RetailPromoRow :=
  mkRow 2 "Acme" (Some "12") " sale " 739040 None.

Definition open_pi_row : RetailPromoRow :=
  mkRow 3 "Acme" None "Price  Increase" 739047 None.

Definition dated_pi_row : RetailPromoRow :=
  mkRow 4 "Acme" (Some "11") "price increase" 739030 (Some 739060).

Definition clearance_row : RetailPromoRow :=
  mkRow 5 "Acme" (Some "13") "Clearance" 739047 (Some 739057).

Definition lower_case_row : RetailPromoRow :=
  mkRow 6 "acme" (Some "12") "Sale" 739040 None.

(** The plan of the rows [sale_row; open_pi_row] under offsets 5/15/5. *)
Definition acme_plan : VendorPlan :=
  mkPlan "Acme" ["11"]
    (Some 739042) (Some 739057) (Some 739032) (Some 739052)
    (Some 739047) (Some 739057) (Some 739047) None.

(** The plan of the row [open_pi_row] alone (scenario B of the design). *)
Definition acme_pi_plan : VendorPlan :=
  mkPlan "Acme" []
    None None (Some 739032) (Some 739052)
    None None (Some 739047) None.

(** A GraphQL answer that carries an [errors] field, and one that does
    not. *)
Definition errors_body : json :=
  JObj [("errors", JArr [JObj [("message", JStr "Field does not exist")]])].

Definition data_body : json :=
  JObj [("data", JObj [("shop", JObj [("name", JStr "demo")])])].

Definition errors_response : response := mkResponse 200 "" (Some errors_body).
Definition data_response : response := mkResponse 200 "" (Some data_body).

(** A remote that answers the first POST with the errors payload and
    every later one with data. *)
Definition errors_then_data (attempt : nat) : http_outcome :=
  match attempt with
  | O => HttpResponse errors_response
  | S _ => HttpResponse data_response
  end.

(** What the count primitives treat as a failed call: the request
    raised, the status is one [raise_for_status] refuses, or the body
    does not parse. *)
Definition call_failed (o : http_outcome) : bool :=
  match o with
  | HttpRaises => true
  | HttpResponse r =>
      ((400 <=? status_code r) && (status_code r <? 600))
      || bool_decide (json_body r = None)
  end.

(** The entry of [vendor_results] for the plan [w] when the count of its
    scope is [n]. *)
Definition result_of (today : date) (w : VendorPlan) (n : Z) : vendor_result :=
  mkResult (plan_vendor w) (has_collection_id w) (collection_ids w) n
    (if payload_will_exist w today then n else 0)
    (if keys_will_delete w today then n else 0).

(** The keys fetched so far are the keys of the cache, each once. *)
Definition fetched_once (st : run_state) : Prop :=
  NoDup (fetched_keys st) ∧
  ∀ k, k ∈ fetched_keys st ↔ is_Some (product_cache st !! k).

(** A remote whose count endpoint answers 7 for every collection and
    fails with status 503 for every vendor. *)
Definition sample_http_get (sent : list count_request) (req : count_request)
  : http_outcome :=
  match req with
  | CountInCollection _ =>
      HttpResponse (mkResponse 200 "" (Some (JObj [("count", JInt 7)])))
  | CountByVendor _ => HttpResponse (mkResponse 503 "" None)
  end.

(** The first exception among the answers of a listing, and the nodes
    of its pages. *)
Fixpoint product_pages_error (pages : product_pages) : option exn :=
  match pages with
  | PRaises e => Some e
  | PLast _ => None
  | PMore _ rest => product_pages_error rest
  end.

Fixpoint product_pages_nodes (pages : product_pages) : list product_node :=
  match pages with
  | PRaises _ => []
  | PLast nodes => nodes
  | PMore nodes rest => nodes ++ product_pages_nodes rest
  end.

Fixpoint collection_pages_error (pages : collection_pages) : option exn :=
  match pages with
  | CRaises e => Some e
  | CNull | CLast _ => None
  | CMore _ rest => collection_pages_error rest
  end.

Fixpoint collection_pages_ids (pages : collection_pages) : list string :=
  match pages with
  | CRaises _ | CNull => []
  | CLast ids => ids
  | CMore ids rest => ids ++ collection_pages_ids rest
  end.

(** A remote with two collections that share a product, and a product
    search that returns vendors in several spellings. *)
Definition sample_collection_listing (gid : string) : collection_pages :=
  if decide (gid = "gid://shopify/Collection/11")
  then CMore ["p1"; "p2"] (CLast ["p3"])
  else if decide (gid = "gid://shopify/Collection/12")
  then CLast ["p2"; "p4"]
  else CNull.

Definition sample_products_listing (query : string) : product_pages :=
  PMore [mkNode "p9" "ACME"; mkNode "p10" "Acme Tools"]
        (PLast [mkNode "p11" " acme "; mkNode "p12" "Other"]).

Definition two_collections_plan : VendorPlan :=
  mkPlan "Acme" ["11"; "12"] None None None None None None None None.

(** ** Vocabulary of the further properties *)

(** The least and the greatest element of a list of dates. *)
Fixpoint min_of (l : list date) : option date :=
  match l with
  | [] => None
  | d :: l' => Some (match min_of l' with None => d | Some m => Z.min d m end)
  end.

Fixpoint max_of (l : list date) : option date :=
  match l with
  | [] => None
  | d :: l' => Some (match max_of l' with None => d | Some m => Z.max d m end)
  end.

#[global] Instance is_sale_dec (r : RetailPromoRow) : Decision (is_sale r) :=
  decide (normalize (entry_type r) = "sale").

#[global] Instance is_price_increase_dec (r : RetailPromoRow)
  : Decision (is_price_increase r) :=
  decide (normalize (entry_type r) = "price increase").

(** The sale rows and the price-increase rows that carry the vendor
    string [v]. *)
Definition sale_rows (v : string) (rows : list RetailPromoRow)
  : list RetailPromoRow :=
  filter is_sale (rows_of v rows).

Definition pi_rows (v : string) (rows : list RetailPromoRow)
  : list RetailPromoRow :=
  filter is_price_increase (rows_of v rows).

(** The display end the window calculator gives a price-increase row. *)
Definition pi_display_end_of (z : Z) (r : RetailPromoRow) : date :=
  match end_date r with Some e => e | None => start_date r + z end.

(** The elements of a list in the order of their first occurrence. *)
Fixpoint first_seen (seen l : list string) : list string :=
  match l with
  | [] => []
  | a :: l' =>
      if decide (a ∈ seen) then first_seen seen l'
      else a :: first_seen (seen ++ [a]) l'
  end.

(** The collection id a row contributes: the one it carries, unless that
    is the empty string. *)
Definition contributed_collection_id (r : RetailPromoRow) : option string :=
  match collection_id r with
  | Some c => if decide (c = "") then None else Some c
  | None => None
  end.


(** The answers [graphql] returns: a status outside the transient set
    and outside 400-599, and a body that is a dict without a truthy
    [errors] field. *)
Definition acceptable (o : http_outcome) (data : json) : Prop :=
  ∃ r fields,
    o = HttpResponse r ∧
    transient_status (status_code r) = false ∧
    ¬ (400 ≤ status_code r < 600) ∧
    json_body r = Some data ∧
    data = JObj fields ∧
    truthy (default JNull (fields_get fields "errors")) = false.

(** Two records of the query: one complete, one whose vendor is blank. *)
Definition acme_record : RawRecord :=
  mkRaw 1 (Some "  Acme ") (Some " 11 ") (Some "Sale ") (Some 739047)
        (Some 739057).

Definition blank_vendor_record : RawRecord :=
  mkRaw 2 (Some "   ") None (Some "Sale") (Some 739047) None.

(** * Properties *)

Example normalize_ex : normalize "  Price   INCREASE " = "price increase".
Proof. reflexivity. Qed.

(** ** The dictionary of plans *)

Section Aggregation.

Variables x y z : Z.

Lemma dict_get_set_eq d k w : dict_get (dict_set d k w) k = Some w.
Proof.
  induction d as [|[k' w'] d IH]; cbn [dict_get dict_set].
  - by rewrite decide_True.
  - destruct (decide (k' = k)) as [->|Hne]; cbn [dict_get].
    + by rewrite decide_True.
    + by rewrite decide_False.
Qed.

Lemma dict_get_set_ne d k k' w :
  k ≠ k' → dict_get (dict_set d k w) k' = dict_get d k'.
Proof.
  intros Hne. induction d as [|[k0 w0] d IH]; cbn [dict_get dict_set].
  - by rewrite decide_False.
  - destruct (decide (k0 = k)) as [->|Hne0]; cbn [dict_get].
    + by rewrite !decide_False.
    + by destruct (decide (k0 = k')).
Qed.

Lemma dict_set_keys d k w :
  (dict_set d k w).*1 = if decide (k ∈ d.*1) then d.*1 else d.*1 ++ [k].
Proof.
  induction d as [|[k0 w0] d IH]; cbn [dict_set].
  - rewrite decide_False; [done | by apply not_elem_of_nil].
  - destruct (decide (k0 = k)) as [->|Hne]; rewrite !fmap_cons; cbn [fst].
    + rewrite decide_True; [done | by left].
    + rewrite IH. destruct (decide (k ∈ d.*1)) as [Hin|Hnin].
      * rewrite decide_True; [done | by right].
      * rewrite decide_False; [done |].
        intros [?|?]%elem_of_cons; congruence.
Qed.

Lemma dict_get_None d k : dict_get d k = None ↔ k ∉ d.*1.
Proof.
  induction d as [|[k0 w0] d IH]; cbn [dict_get].
  - split; [intros _; apply not_elem_of_nil | done].
  - rewrite fmap_cons; cbn [fst].
    destruct (decide (k0 = k)) as [->|Hne].
    + split; [done | intros []; by left].
    + rewrite IH, not_elem_of_cons. intuition congruence.
Qed.

Lemma dict_get_elem d k w :
  NoDup d.*1 → (k, w) ∈ d → dict_get d k = Some w.
Proof.
  induction d as [|[k0 w0] d IH]; cbn [dict_get]; intros Hnd Hin.
  - by apply elem_of_nil in Hin.
  - rewrite fmap_cons in Hnd; cbn [fst] in Hnd.
    apply NoDup_cons in Hnd as [Hk0 Hnd].
    apply elem_of_cons in Hin as [Heq|Hin].
    + injection Heq as -> ->. by rewrite decide_True.
    + destruct (decide (k0 = k)) as [->|Hne]; [|by apply IH].
      exfalso. apply Hk0. apply list_elem_of_fmap. by exists (k, w).
Qed.

Lemma fold_row_vendor w r : plan_vendor (fold_row x y z w r) = plan_vendor w.
Proof.
  unfold fold_row. destruct (compute_display_window r x y z).
  repeat case_decide; done.
Qed.

Lemma fold_rows_vendor rows w :
  plan_vendor (fold_rows x y z rows w) = plan_vendor w.
Proof.
  revert w. induction rows as [|r rows IH]; intros w; [done|].
  unfold fold_rows in *. simpl. by rewrite IH, fold_row_vendor.
Qed.

(** The plan stored under [v] after folding [rows] into [d]. *)
Lemma aggregate_fold_get rows d v :
  dict_get (fold_left (aggregate_step x y z) rows d) v =
  match dict_get d v with
  | Some w => Some (fold_rows x y z (rows_of v rows) w)
  | None =>
      match rows_of v rows with
      | [] => None
      | _ => Some (fold_rows x y z (rows_of v rows) (new_plan v))
      end
  end.
Proof.
  revert d. induction rows as [|r rows IH]; intros d.
  - simpl. by destruct (dict_get d v).
  - cbn [fold_left]. rewrite IH. unfold aggregate_step, rows_of.
    rewrite filter_cons. destruct (decide (vendor r = v)) as [<-|Hne].
    + rewrite dict_get_set_eq. by destruct (dict_get d (vendor r)).
    + rewrite dict_get_set_ne by done. done.
Qed.

Lemma aggregate_fold_keys rows d :
  NoDup d.*1 →
  NoDup (fold_left (aggregate_step x y z) rows d).*1 ∧
  ∀ v, v ∈ (fold_left (aggregate_step x y z) rows d).*1 ↔
       v ∈ d.*1 ∨ ∃ r, r ∈ rows ∧ vendor r = v.
Proof.
  revert d. induction rows as [|r rows IH]; intros d Hnd.
  - simpl. split; [done|]. intros v. split; [by left|].
    intros [?|(r & Hr & _)]; [done|]. by apply elem_of_nil in Hr.
  - cbn [fold_left].
    assert (Hkeys := dict_set_keys d (vendor r)
      (fold_row x y z (default (new_plan (vendor r)) (dict_get d (vendor r))) r)).
    fold (aggregate_step x y z d r) in Hkeys.
    assert (NoDup (aggregate_step x y z d r).*1) as Hnd'.
    { rewrite Hkeys. case_decide; [done|].
      apply NoDup_app. split_and!; [done| |apply NoDup_singleton].
      intros k Hk Hk'%list_elem_of_singleton. by subst. }
    destruct (IH _ Hnd') as [IH1 IH2]. split; [done|].
    intros v. rewrite IH2, Hkeys. split.
    + intros [Hv|(r' & Hr' & Hv)].
      * case_decide; [by left|].
        apply elem_of_app in Hv as [?|Hv%list_elem_of_singleton]; [by left|].
        subst v.
        right. exists r. split; [by left | done].
      * right. exists r'. split; [by right | done].
    + intros [Hv|(r' & Hr' & Hv)].
      * left. case_decide; [done|]. apply elem_of_app. by left.
      * apply elem_of_cons in Hr' as [->|Hr'].
        -- left. subst v. case_decide; [done|].
           apply elem_of_app. right. by apply list_elem_of_singleton.
        -- right. by exists r'.
Qed.

(** Every plan of the result is the fold of exactly the rows that carry
    its vendor string, from a fresh plan. *)
Lemma aggregate_plan_fold rows p :
  p ∈ aggregate_by_vendor rows x y z →
  rows_of (plan_vendor p) rows ≠ [] ∧
  p = fold_rows x y z (rows_of (plan_vendor p) rows) (new_plan (plan_vendor p)).
Proof.
  unfold aggregate_by_vendor, aggregate_dict. intros Hp.
  apply list_elem_of_fmap in Hp as ([k w] & -> & Hin). cbn [snd].
  destruct (aggregate_fold_keys rows [] (NoDup_nil_2)) as [Hnd _].
  pose proof (dict_get_elem _ _ _ Hnd Hin) as Hget.
  rewrite aggregate_fold_get in Hget. cbn [dict_get] in Hget.
  destruct (rows_of k rows) as [|r0 l] eqn:Hrows; [done|].
  assert (w = fold_rows x y z (r0 :: l) (new_plan k)) as -> by congruence.
  rewrite fold_rows_vendor. cbn [new_plan plan_vendor]. by rewrite Hrows.
Qed.

Lemma aggregate_dict_vendor rows k w :
  (k, w) ∈ aggregate_dict rows x y z → plan_vendor w = k.
Proof.
  intros Hin.
  destruct (aggregate_fold_keys rows [] (NoDup_nil_2)) as [Hnd _].
  pose proof (dict_get_elem _ _ _ Hnd Hin) as Hget.
  unfold aggregate_dict in Hget.
  rewrite aggregate_fold_get in Hget. cbn [dict_get] in Hget.
  destruct (rows_of k rows) as [|r0 l]; [done|].
  assert (w = fold_rows x y z (r0 :: l) (new_plan k)) as -> by congruence.
  by rewrite fold_rows_vendor.
Qed.

Lemma fmap_vendor_keys (d : list (string * VendorPlan)) :
  (∀ k w, (k, w) ∈ d → plan_vendor w = k) →
  plan_vendor <$> d.*2 = d.*1.
Proof.
  induction d as [|[k w] d IH]; intros Hd; [done|].
  rewrite !fmap_cons. cbn [fst snd]. f_equal.
  - apply Hd. by left.
  - apply IH. intros k' w' Hin. apply Hd. by right.
Qed.

Lemma aggregate_vendors rows :
  NoDup (plan_vendor <$> aggregate_by_vendor rows x y z) ∧
  ∀ v, v ∈ plan_vendor <$> aggregate_by_vendor rows x y z ↔
       ∃ r, r ∈ rows ∧ vendor r = v.
Proof.
  unfold aggregate_by_vendor.
  rewrite fmap_vendor_keys by apply aggregate_dict_vendor.
  destruct (aggregate_fold_keys rows [] (NoDup_nil_2)) as [Hnd Hiff].
  split; [done|]. intros v. unfold aggregate_dict. rewrite Hiff.
  split; [|by right]. intros [Hv|?]; [|done]. by apply elem_of_nil in Hv.
Qed.

(** *** The three shapes of [fold_row] *)

Lemma fold_row_sale w r :
  is_sale r →
  fold_row x y z w r =
  mkPlan (plan_vendor w)
    (add_collection_id (collection_id r) (collection_ids w))
    (merge_min (sale_display_start w) (start_date r - x))
    (merge_max (sale_display_end w) (end_or_start r))
    (pi_display_start w) (pi_display_end w)
    (merge_min (sale_real_start w) (start_date r))
    (merge_max (sale_real_end w) (end_or_start r))
    (pi_real_start w) (pi_real_end w).
Proof.
  unfold is_sale, fold_row, compute_display_window. intros Ht.
  by destruct (decide (normalize (entry_type r) = "sale")).
Qed.

Lemma fold_row_pi w r :
  is_price_increase r →
  fold_row x y z w r =
  mkPlan (plan_vendor w)
    (add_collection_id (collection_id r) (collection_ids w))
    (sale_display_start w) (sale_display_end w)
    (merge_min (pi_display_start w) (start_date r - y))
    (merge_max (pi_display_end w)
       (match end_date r with Some e => e | None => start_date r + z end))
    (sale_real_start w) (sale_real_end w)
    (merge_min (pi_real_start w) (start_date r))
    (match end_date r with
     | Some e => merge_max (pi_real_end w) e
     | None => pi_real_end w
     end).
Proof.
  unfold is_price_increase, fold_row, compute_display_window. intros Ht.
  destruct (decide (normalize (entry_type r) = "sale")) as [E|_];
    [rewrite Ht in E; discriminate|].
  by destruct (decide (normalize (entry_type r) = "price increase")).
Qed.

Lemma fold_row_other w r :
  ¬ is_sale r → ¬ is_price_increase r →
  fold_row x y z w r =
  mkPlan (plan_vendor w)
    (add_collection_id (collection_id r) (collection_ids w))
    (sale_display_start w) (sale_display_end w)
    (pi_display_start w) (pi_display_end w)
    (sale_real_start w) (sale_real_end w)
    (pi_real_start w) (pi_real_end w).
Proof.
  unfold is_sale, is_price_increase, fold_row, compute_display_window.
  intros Hs Hp.
  destruct (decide (normalize (entry_type r) = "sale")); [done|].
  by destruct (decide (normalize (entry_type r) = "price increase")).
Qed.

Lemma entry_type_cases r :
  is_sale r ∨ is_price_increase r ∨ (¬ is_sale r ∧ ¬ is_price_increase r).
Proof.
  unfold is_sale, is_price_increase.
  destruct (decide (normalize (entry_type r) = "sale")); [by left|].
  destruct (decide (normalize (entry_type r) = "price increase"));
    [by right; left | by right; right].
Qed.

Lemma sale_not_pi r : is_sale r → ¬ is_price_increase r.
Proof. unfold is_sale, is_price_increase. intros -> ?. discriminate. Qed.

(** *** Merging is commutative *)

Lemma merge_min_swap o a b :
  merge_min (merge_min o a) b = merge_min (merge_min o b) a.
Proof. unfold merge_min. destruct o; f_equal; lia. Qed.

Lemma merge_max_swap o a b :
  merge_max (merge_max o a) b = merge_max (merge_max o b) a.
Proof. unfold merge_max. destruct o; f_equal; lia. Qed.

Lemma add_collection_id_elem c cid ids :
  c ∈ add_collection_id cid ids ↔ c ∈ ids ∨ (cid = Some c ∧ c ≠ "").
Proof.
  unfold add_collection_id. destruct cid as [c'|]; [|naive_solver].
  repeat case_decide; rewrite ?elem_of_app, ?list_elem_of_singleton;
    naive_solver.
Qed.

Lemma add_collection_id_perm cid ids ids' :
  ids ≡ₚ ids' → add_collection_id cid ids ≡ₚ add_collection_id cid ids'.
Proof.
  intros Hp. unfold add_collection_id. destruct cid as [c|]; [|done].
  case_decide; [done|].
  destruct (decide (c ∈ ids)) as [Hin|Hnin].
  - rewrite decide_True; [done | by rewrite <- Hp].
  - rewrite decide_False; [by rewrite Hp | by rewrite <- Hp].
Qed.

Lemma add_collection_id_swap c1 c2 ids :
  add_collection_id c2 (add_collection_id c1 ids)
  ≡ₚ add_collection_id c1 (add_collection_id c2 ids).
Proof.
  destruct c1 as [a|], c2 as [b|]; try done.
  destruct (decide (a = b)) as [->|Hab]; [done|].
  unfold add_collection_id.
  repeat case_decide; try done;
    try (rewrite ?elem_of_app, ?list_elem_of_singleton in *; naive_solver).
  rewrite <- !(assoc_L (++)). apply Permutation_app_head, perm_swap.
Qed.

(** *** [plan_equiv] is an equivalence that [fold_row] respects *)

Lemma plan_equiv_refl p : plan_equiv p p.
Proof. unfold plan_equiv. by split_and!. Qed.

Lemma plan_equiv_sym p q : plan_equiv p q → plan_equiv q p.
Proof. unfold plan_equiv. intros H. destruct_and!. by split_and!. Qed.

Lemma plan_equiv_trans p q r :
  plan_equiv p q → plan_equiv q r → plan_equiv p r.
Proof.
  unfold plan_equiv. intros H1 H2. destruct_and!.
  split_and!; try congruence. by etrans.
Qed.

Lemma fold_row_equiv w w' r :
  plan_equiv w w' → plan_equiv (fold_row x y z w r) (fold_row x y z w' r).
Proof.
  intros (Hv & Hc & H1 & H2 & H3 & H4 & H5 & H6 & H7 & H8).
  pose proof (add_collection_id_perm (collection_id r) _ _ Hc) as Hc'.
  destruct (entry_type_cases r) as [Hs|[Hp|[Hs Hp]]].
  - rewrite !fold_row_sale by done. unfold plan_equiv. cbn.
    split_and!; congruence.
  - rewrite !fold_row_pi by done. unfold plan_equiv. cbn.
    split_and!; try congruence. destruct (end_date r); congruence.
  - rewrite !fold_row_other by done. unfold plan_equiv. cbn.
    split_and!; congruence.
Qed.

Lemma fold_row_swap w r1 r2 :
  plan_equiv (fold_row x y z (fold_row x y z w r1) r2)
             (fold_row x y z (fold_row x y z w r2) r1).
Proof.
  pose proof (add_collection_id_swap (collection_id r1) (collection_id r2)
                (collection_ids w)) as Hc.
  destruct (entry_type_cases r1) as [Hs1|[Hp1|[Hs1 Hp1]]];
  destruct (entry_type_cases r2) as [Hs2|[Hp2|[Hs2 Hp2]]];
    repeat first [ rewrite fold_row_sale by done
                 | rewrite fold_row_pi by done
                 | rewrite fold_row_other by done ];
    unfold plan_equiv; cbn;
    split_and!; try done;
    try apply merge_min_swap; try apply merge_max_swap.
  destruct (end_date r1), (end_date r2); try done. apply merge_max_swap.
Qed.

Lemma fold_rows_equiv rows w w' :
  plan_equiv w w' →
  plan_equiv (fold_rows x y z rows w) (fold_rows x y z rows w').
Proof.
  revert w w'. induction rows as [|r rows IH]; intros w w' Hw; [done|].
  unfold fold_rows in *. cbn [fold_left]. by apply IH, fold_row_equiv.
Qed.

(** Folding a permutation of the rows gives an equivalent plan. *)
Lemma fold_rows_perm rows rows' w :
  rows ≡ₚ rows' →
  plan_equiv (fold_rows x y z rows w) (fold_rows x y z rows' w).
Proof.
  intros Hp. revert w.
  induction Hp as [|r l l' _ IH|r1 r2 l|l1 l2 l3 _ IH1 _ IH2]; intros w.
  - apply plan_equiv_refl.
  - apply IH.
  - unfold fold_rows. cbn [fold_left].
    apply (fold_rows_equiv l), fold_row_swap.
  - eapply plan_equiv_trans; [apply IH1 | apply IH2].
Qed.

(** The rows of a single vendor give a single plan. *)
Lemma aggregate_fold_one_vendor rows v w :
  Forall (λ r, vendor r = v) rows →
  fold_left (aggregate_step x y z) rows [(v, w)] =
  [(v, fold_rows x y z rows w)].
Proof.
  intros Hall. revert w. induction Hall as [|r rows Hr _ IH]; intros w.
  - done.
  - cbn [fold_left]. unfold aggregate_step at 2. rewrite Hr.
    cbn [dict_get dict_set]. rewrite !decide_True by done.
    cbn [default]. apply IH.
Qed.

Lemma aggregate_one_vendor rows v :
  Forall (λ r, vendor r = v) rows →
  aggregate_by_vendor rows x y z =
  match rows with
  | [] => []
  | _ => [fold_rows x y z rows (new_plan v)]
  end.
Proof.
  intros Hall. destruct Hall as [|r rows Hr Hall]; [done|].
  unfold aggregate_by_vendor, aggregate_dict. cbn [fold_left].
  unfold aggregate_step at 2. rewrite Hr. cbn [dict_get dict_set default].
  by rewrite aggregate_fold_one_vendor.
Qed.

(** *** What a fold leaves alone, and what it sets *)

Lemma fold_rows_cons r rows w :
  fold_rows x y z (r :: rows) w = fold_rows x y z rows (fold_row x y z w r).
Proof. done. Qed.

(** Rows that are not sales leave the four sale bounds as they are. *)
Lemma fold_rows_no_sale rows w :
  (∀ r, r ∈ rows → ¬ is_sale r) →
  sale_display_start (fold_rows x y z rows w) = sale_display_start w ∧
  sale_display_end (fold_rows x y z rows w) = sale_display_end w ∧
  sale_real_start (fold_rows x y z rows w) = sale_real_start w ∧
  sale_real_end (fold_rows x y z rows w) = sale_real_end w.
Proof.
  revert w. induction rows as [|r rows IH]; intros w Hrows; [done|].
  rewrite fold_rows_cons.
  destruct (IH (fold_row x y z w r)) as (-> & -> & -> & ->).
  { intros r' Hr'. apply Hrows. by right. }
  assert (¬ is_sale r) as Hs by (apply Hrows; by left).
  destruct (entry_type_cases r) as [?|[Hp|[_ Hp]]]; [done| |].
  - by rewrite fold_row_pi.
  - by rewrite fold_row_other.
Qed.

(** Rows that are not price increases leave the four price-increase
    bounds as they are. *)
Lemma fold_rows_no_pi rows w :
  (∀ r, r ∈ rows → ¬ is_price_increase r) →
  pi_display_start (fold_rows x y z rows w) = pi_display_start w ∧
  pi_display_end (fold_rows x y z rows w) = pi_display_end w ∧
  pi_real_start (fold_rows x y z rows w) = pi_real_start w ∧
  pi_real_end (fold_rows x y z rows w) = pi_real_end w.
Proof.
  revert w. induction rows as [|r rows IH]; intros w Hrows; [done|].
  rewrite fold_rows_cons.
  destruct (IH (fold_row x y z w r)) as (-> & -> & -> & ->).
  { intros r' Hr'. apply Hrows. by right. }
  assert (¬ is_price_increase r) as Hp by (apply Hrows; by left).
  destruct (entry_type_cases r) as [Hs|[?|[Hs _]]]; [|done|].
  - by rewrite fold_row_sale.
  - by rewrite fold_row_other.
Qed.

(** The real end of the price increase changes only on a price-increase
    row that carries an end date. *)
Lemma fold_rows_pi_real_end rows w :
  (∀ r, r ∈ rows → is_price_increase r → end_date r = None) →
  pi_real_end (fold_rows x y z rows w) = pi_real_end w.
Proof.
  revert w. induction rows as [|r rows IH]; intros w Hrows; [done|].
  rewrite fold_rows_cons, IH by (intros r' Hr'; apply Hrows; by right).
  destruct (entry_type_cases r) as [Hs|[Hp|[Hs Hp]]].
  - by rewrite fold_row_sale.
  - rewrite fold_row_pi by done. cbn.
    rewrite (Hrows r) by (done || by left). done.
  - by rewrite fold_row_other.
Qed.

(** A real end of the price increase is always the end date of one of
    the price-increase rows folded in. *)
Lemma fold_rows_pi_real_end_origin rows w e :
  pi_real_end (fold_rows x y z rows w) = Some e →
  pi_real_end w = Some e ∨
  ∃ r, r ∈ rows ∧ is_price_increase r ∧ end_date r = Some e.
Proof.
  revert w. induction rows as [|r rows IH]; intros w H; [by left|].
  rewrite fold_rows_cons in H.
  apply IH in H as [H|(r' & Hr' & Hpi & He)].
  - destruct (entry_type_cases r) as [Hs|[Hp|[Hs Hp]]].
    + rewrite fold_row_sale in H by done. by left.
    + rewrite fold_row_pi in H by done. cbn in H.
      destruct (end_date r) as [e0|] eqn:He0; [|by left].
      unfold merge_max in H. destruct (pi_real_end w) as [c|].
      * injection H as H. destruct (Z.max_spec c e0) as [[_ Hm]|[_ Hm]].
        -- right. exists r. split_and!; [by left | done | congruence].
        -- left. congruence.
      * right. exists r. split_and!; [by left | done | congruence].
    + rewrite fold_row_other in H by done. by left.
  - right. exists r'. split_and!; [by right | done | done].
Qed.

(** The display end of a price-increase row, as the window calculator
    gives it. *)
Lemma fold_rows_pi_display_end_mono rows w d0 :
  pi_display_end w = Some d0 →
  ∃ d, pi_display_end (fold_rows x y z rows w) = Some d ∧ d0 ≤ d.
Proof.
  revert w d0. induction rows as [|r rows IH]; intros w d0 Hw.
  - exists d0. split; [done | lia].
  - rewrite fold_rows_cons.
    destruct (entry_type_cases r) as [Hs|[Hp|[Hs Hp]]].
    + apply IH. by rewrite fold_row_sale.
    + destruct (IH (fold_row x y z w r)
                   (Z.max d0 (match end_date r with
                              | Some e => e
                              | None => start_date r + z
                              end))) as (d & Hd & Hle).
      { rewrite fold_row_pi by done. cbn. by rewrite Hw. }
      exists d. split; [done | lia].
    + apply IH. by rewrite fold_row_other.
Qed.

Lemma fold_rows_pi_display_end rows w r :
  r ∈ rows → is_price_increase r →
  ∃ d, pi_display_end (fold_rows x y z rows w) = Some d ∧
       match end_date r with Some e => e | None => start_date r + z end ≤ d.
Proof.
  revert w. induction rows as [|r0 rows IH]; intros w Hr Hp.
  - by apply elem_of_nil in Hr.
  - rewrite fold_rows_cons. apply elem_of_cons in Hr as [->|Hr].
    + remember (match end_date r0 with
                | Some e => e
                | None => start_date r0 + z
                end) as e eqn:He.
      destruct (fold_rows_pi_display_end_mono rows (fold_row x y z w r0)
                  (match pi_display_end w with
                   | None => e
                   | Some c => Z.max c e
                   end)) as (d & Hd & Hle).
      { rewrite fold_row_pi by done. cbn. by rewrite <- He. }
      exists d. split; [done|]. subst e.
      destruct (pi_display_end w), (end_date r0); lia.
    + by apply IH.
Qed.

Lemma elem_of_rows_of v rows r : r ∈ rows_of v rows ↔ r ∈ rows ∧ vendor r = v.
Proof. unfold rows_of. by rewrite list_elem_of_filter, (comm and). Qed.

End Aggregation.


(** ** The window calculator and the aggregator *)

(** C4.  For a row whose entry type normalizes to "sale" and an offset
    [x]: the display window starts [x] days before the start date and
    ends at the end date when there is one, else at the start date; and
    the real end the aggregator folds into the plan is that same date
    (the only one when the plan had none, as for the first sale row of a
    vendor). *)
Theorem sale_window_and_real_end (r : RetailPromoRow) (x y z : Z)
  (w : VendorPlan) :
  is_sale r →
  compute_display_window r x y z =
    (start_date r - x,
     match end_date r with Some e => e | None => start_date r end) ∧
  sale_real_end (fold_row x y z w r) =
    merge_max (sale_real_end w)
      (match end_date r with Some e => e | None => start_date r end) ∧
  sale_real_end (fold_row x y z (new_plan (vendor r)) r) =
    Some (match end_date r with Some e => e | None => start_date r end).
Proof.
  intros Hs. split_and!.
  - unfold compute_display_window. unfold is_sale in Hs.
    destruct (decide (normalize (entry_type r) = "sale")); [|done].
    unfold end_or_start. by destruct (end_date r).
  - rewrite fold_row_sale by done. cbn. unfold end_or_start.
    by destruct (end_date r).
  - rewrite fold_row_sale by done. cbn. unfold end_or_start.
    by destruct (end_date r).
Qed.

Lemma sale_window_and_real_end_witness :
  compute_display_window open_sale_row 5 15 5 = (739035, 739040) ∧
  sale_real_end (fold_row 5 15 5 (new_plan "Acme") sale_row) = Some 739057 ∧
  sale_real_end (fold_row 5 15 5 (new_plan "Acme") open_sale_row)
    = Some 739040.
Proof.
  split_and!.
  - exact (proj1 (sale_window_and_real_end open_sale_row 5 15 5
                    (new_plan "Acme") eq_refl)).
  - exact (proj2 (proj2 (sale_window_and_real_end sale_row 5 15 5
                           (new_plan "Acme") eq_refl))).
  - exact (proj2 (proj2 (sale_window_and_real_end open_sale_row 5 15 5
                           (new_plan "Acme") eq_refl))).
Defined.

(** C3.  Aggregation does not depend on the order of the rows of one
    vendor: a list of rows that all carry the vendor [v] and any
    permutation of it aggregate to the same plans, with equal display and
    real bounds and the same collection ids (as a set: the list of ids
    may come out in another order). *)
Theorem aggregation_order_independent (v : string)
  (rows rows' : list RetailPromoRow) (x y z : Z) :
  Forall (λ r, vendor r = v) rows →
  rows ≡ₚ rows' →
  Forall2 plan_equiv (aggregate_by_vendor rows x y z)
                     (aggregate_by_vendor rows' x y z).
Proof.
  intros Hall Hperm.
  assert (Forall (λ r, vendor r = v) rows') as Hall' by by rewrite <- Hperm.
  rewrite (aggregate_one_vendor x y z rows v Hall),
    (aggregate_one_vendor x y z rows' v Hall').
  destruct rows as [|r rows], rows' as [|r' rows'].
  - constructor.
  - by apply Permutation_nil_cons in Hperm.
  - symmetry in Hperm. by apply Permutation_nil_cons in Hperm.
  - constructor; [|constructor]. by apply fold_rows_perm.
Qed.

Lemma aggregation_order_independent_witness :
  Forall2 plan_equiv
    (aggregate_by_vendor [sale_row; open_pi_row; open_sale_row] 5 15 5)
    (aggregate_by_vendor [open_sale_row; sale_row; open_pi_row] 5 15 5).
Proof.
  apply (aggregation_order_independent "Acme").
  - repeat constructor.
  - symmetry.
    apply (Permutation_cons_append [sale_row; open_pi_row] open_sale_row).
Defined.

(** C5.  In every plan that aggregation produces, the real end of the
    price increase is never synthesized: when it is a date, that date is
    the end date of a price-increase row of the vendor, so it is [None]
    whenever no such row supplied an end date.  The display end of the
    price increase is nevertheless a date as soon as the vendor has a
    price-increase row: the window calculator gives such a row the end
    date when it has one and its start plus [z] days otherwise, and the
    plan's display end is no earlier. *)
Theorem pi_real_end_never_synthesized (rows : list RetailPromoRow)
  (x y z : Z) (p : VendorPlan) :
  p ∈ aggregate_by_vendor rows x y z →
  (∀ e, pi_real_end p = Some e →
        ∃ r, r ∈ rows ∧ vendor r = plan_vendor p ∧ is_price_increase r ∧
             end_date r = Some e) ∧
  ((∀ r, r ∈ rows → vendor r = plan_vendor p → is_price_increase r →
         end_date r = None) →
   pi_real_end p = None) ∧
  (∀ r, r ∈ rows → vendor r = plan_vendor p → is_price_increase r →
        (compute_display_window r x y z).2 =
          match end_date r with Some e => e | None => start_date r + z end ∧
        ∃ d, pi_display_end p = Some d ∧
             (compute_display_window r x y z).2 ≤ d).
Proof.
  intros Hp.
  destruct (aggregate_plan_fold x y z rows p Hp) as [_ Heq].
  assert (∀ e, pi_real_end p = Some e →
            ∃ r, r ∈ rows ∧ vendor r = plan_vendor p ∧ is_price_increase r ∧
                 end_date r = Some e) as Horigin.
  { intros e He. rewrite Heq in He.
    apply fold_rows_pi_real_end_origin in He
      as [He|(r & [Hr Hv]%elem_of_rows_of & Hpi & Hend)]; [done|].
    by exists r. }
  split_and!.
  - exact Horigin.
  - intros Hnone. destruct (pi_real_end p) as [e|] eqn:He; [|done].
    destruct (Horigin e eq_refl) as (r & Hr & Hv & Hpi & Hend).
    rewrite (Hnone r Hr Hv Hpi) in Hend. discriminate.
  - intros r Hr Hv Hpi.
    assert ((compute_display_window r x y z).2 =
            match end_date r with Some e => e | None => start_date r + z end)
      as Hwin.
    { unfold compute_display_window. unfold is_price_increase in Hpi.
      destruct (decide (normalize (entry_type r) = "sale")) as [E|_];
        [rewrite Hpi in E; discriminate|].
      by destruct (decide (normalize (entry_type r) = "price increase")). }
    split; [done|]. rewrite Hwin.
    destruct (fold_rows_pi_display_end x y z
                (rows_of (plan_vendor p) rows)
                (new_plan (plan_vendor p)) r) as (d & Hd & Hle).
    { by apply elem_of_rows_of. }
    { done. }
    exists d. rewrite Heq. by split.
Qed.

Lemma pi_real_end_never_synthesized_witness :
  pi_real_end acme_plan = None ∧
  (compute_display_window open_pi_row 5 15 5).2 = 739047 + 5 ∧
  ∃ d, pi_display_end acme_plan = Some d ∧
       (compute_display_window open_pi_row 5 15 5).2 ≤ d.
Proof.
  assert (acme_plan ∈ aggregate_by_vendor [sale_row; open_pi_row] 5 15 5)
    as Hin.
  { apply list_elem_of_In. vm_compute. left. reflexivity. }
  destruct (pi_real_end_never_synthesized
              [sale_row; open_pi_row] 5 15 5 acme_plan Hin)
    as (_ & Hreal & Hdisplay).
  split.
  - apply Hreal. intros r Hr _ Hpi. apply list_elem_of_In in Hr.
    destruct Hr as [<-|[<-|[]]]; [|reflexivity].
    vm_compute in Hpi. discriminate.
  - apply (Hdisplay open_pi_row).
    + apply list_elem_of_In. right. left. reflexivity.
    + reflexivity.
    + reflexivity.
Defined.

(** C6.  For every plan and each of the two categories, the category
    should exist today exactly when both display bounds are present and
    today lies between them, bounds included; and in a plan that
    aggregation produced, a category for which the vendor has no row has
    no bounds and should not exist. *)
Theorem should_exist_decision (w : VendorPlan) (today : date) :
  (sale_should_exist w today = true ↔
     ∃ s e, sale_display_start w = Some s ∧ sale_display_end w = Some e ∧
            s ≤ today ≤ e) ∧
  (pi_should_exist w today = true ↔
     ∃ s e, pi_display_start w = Some s ∧ pi_display_end w = Some e ∧
            s ≤ today ≤ e) ∧
  (∀ rows x y z, w ∈ aggregate_by_vendor rows x y z →
     ((∀ r, r ∈ rows → vendor r = plan_vendor w → ¬ is_sale r) →
        sale_display_start w = None ∧ sale_display_end w = None ∧
        sale_should_exist w today = false) ∧
     ((∀ r, r ∈ rows → vendor r = plan_vendor w → ¬ is_price_increase r) →
        pi_display_start w = None ∧ pi_display_end w = None ∧
        pi_should_exist w today = false)).
Proof.
  split_and!.
  - unfold sale_should_exist.
    destruct (sale_display_start w) as [s|], (sale_display_end w) as [e|];
      (split; [intros H | intros (s' & e' & Hs & He & Hle)]);
      try discriminate.
    + exists s, e. apply andb_true_iff in H as [?%Z.leb_le ?%Z.leb_le]. done.
    + injection Hs as <-. injection He as <-.
      apply andb_true_iff. split; apply Z.leb_le; lia.
  - unfold pi_should_exist.
    destruct (pi_display_start w) as [s|], (pi_display_end w) as [e|];
      (split; [intros H | intros (s' & e' & Hs & He & Hle)]);
      try discriminate.
    + exists s, e. apply andb_true_iff in H as [?%Z.leb_le ?%Z.leb_le]. done.
    + injection Hs as <-. injection He as <-.
      apply andb_true_iff. split; apply Z.leb_le; lia.
  - intros rows x y z Hw.
    destruct (aggregate_plan_fold x y z rows w Hw) as [_ Heq].
    split; intros Hnone.
    + destruct (fold_rows_no_sale x y z (rows_of (plan_vendor w) rows)
                  (new_plan (plan_vendor w))) as (Hs & He & _).
      { intros r [Hr Hv]%elem_of_rows_of. by apply Hnone. }
      rewrite <- Heq in Hs, He. cbn in Hs, He.
      unfold sale_should_exist. by rewrite Hs, He.
    + destruct (fold_rows_no_pi x y z (rows_of (plan_vendor w) rows)
                  (new_plan (plan_vendor w))) as (Hs & He & _).
      { intros r [Hr Hv]%elem_of_rows_of. by apply Hnone. }
      rewrite <- Heq in Hs, He. cbn in Hs, He.
      unfold pi_should_exist. by rewrite Hs, He.
Qed.

Lemma should_exist_decision_witness :
  pi_should_exist acme_pi_plan 739049 = true ∧
  sale_should_exist acme_pi_plan 739049 = false.
Proof.
  destruct (should_exist_decision acme_pi_plan 739049)
    as (_ & Hpi & Hrows).
  split.
  - apply Hpi. exists 739032, 739052. split_and!; [reflexivity..|lia|lia].
  - destruct (Hrows [open_pi_row] 5 15 5) as [Hsale _].
    { apply list_elem_of_In. vm_compute. left. reflexivity. }
    apply Hsale. intros r Hr _ Hs. apply list_elem_of_In in Hr.
    destruct Hr as [<-|[]]. vm_compute in Hs. discriminate.
Defined.

(** C10.  Rows whose normalized entry type is neither "sale" nor
    "price increase": the window calculator gives each the window
    (start, start); folding one into a plan adds its collection id when
    it is non-empty and new, and leaves the eight bounds as they were;
    and when a list holds only such rows, every plan of its aggregation
    has no bound at all and neither category ever should exist. *)
Theorem other_entry_types_leave_windows (rows : list RetailPromoRow)
  (x y z : Z) :
  (∀ r, r ∈ rows → ¬ is_sale r ∧ ¬ is_price_increase r) →
  (∀ r w, r ∈ rows →
     compute_display_window r x y z = (start_date r, start_date r) ∧
     fold_row x y z w r =
       mkPlan (plan_vendor w)
         (add_collection_id (collection_id r) (collection_ids w))
         (sale_display_start w) (sale_display_end w)
         (pi_display_start w) (pi_display_end w)
         (sale_real_start w) (sale_real_end w)
         (pi_real_start w) (pi_real_end w)) ∧
  (∀ p today, p ∈ aggregate_by_vendor rows x y z →
     sale_display_start p = None ∧ sale_display_end p = None ∧
     pi_display_start p = None ∧ pi_display_end p = None ∧
     sale_real_start p = None ∧ sale_real_end p = None ∧
     pi_real_start p = None ∧ pi_real_end p = None ∧
     sale_should_exist p today = false ∧ pi_should_exist p today = false).
Proof.
  intros Hother. split.
  - intros r w Hr. destruct (Hother r Hr) as [Hs Hp]. split.
    + unfold compute_display_window. unfold is_sale, is_price_increase in *.
      destruct (decide (normalize (entry_type r) = "sale")); [done|].
      by destruct (decide (normalize (entry_type r) = "price increase")).
    + by apply fold_row_other.
  - intros p today Hin.
    destruct (aggregate_plan_fold x y z rows p Hin) as [_ Heq].
    destruct (fold_rows_no_sale x y z (rows_of (plan_vendor p) rows)
                (new_plan (plan_vendor p))) as (H1 & H2 & H3 & H4).
    { intros r [Hr _]%elem_of_rows_of. by apply Hother. }
    destruct (fold_rows_no_pi x y z (rows_of (plan_vendor p) rows)
                (new_plan (plan_vendor p))) as (H5 & H6 & H7 & H8).
    { intros r [Hr _]%elem_of_rows_of. by apply Hother. }
    rewrite <- Heq in H1, H2, H3, H4, H5, H6, H7, H8.
    cbn in H1, H2, H3, H4, H5, H6, H7, H8.
    unfold sale_should_exist, pi_should_exist.
    rewrite H1, H2, H5, H6. by split_and!.
Qed.

Lemma other_entry_types_leave_windows_witness :
  compute_display_window clearance_row 5 15 5 = (739047, 739047) ∧
  collection_ids (fold_row 5 15 5 acme_plan clearance_row) = ["11"; "13"] ∧
  sale_display_end (fold_row 5 15 5 acme_plan clearance_row) = Some 739057 ∧
  aggregate_by_vendor [clearance_row] 5 15 5 =
    [mkPlan "Acme" ["13"] None None None None None None None None].
Proof.
  assert (∀ r, r ∈ [clearance_row] → ¬ is_sale r ∧ ¬ is_price_increase r)
    as Hother.
  { intros r Hr. apply list_elem_of_In in Hr. destruct Hr as [<-|[]].
    split; intros H; vm_compute in H; discriminate. }
  destruct (other_entry_types_leave_windows [clearance_row] 5 15 5 Hother)
    as [Hrow _].
  destruct (Hrow clearance_row acme_plan) as [Hwin Hfold].
  { apply list_elem_of_In. left. reflexivity. }
  split; [exact Hwin|]. rewrite Hfold. split_and!; reflexivity.
Defined.

(** C2, as the code has it.  Plans are keyed by the vendor string exactly
    as the rows carry it: the plans have pairwise distinct vendor
    strings, there is one for each vendor string that occurs in the
    rows, and each is the fold, from a fresh plan, of exactly the rows
    whose vendor string equals its own.  The only normalization a vendor
    name gets is the reader's, which strips surrounding whitespace; no
    case folding and no collapsing of inner whitespace enters the key. *)
Theorem plans_keyed_by_exact_vendor_string (rows : list RetailPromoRow)
  (x y z : Z) :
  NoDup (plan_vendor <$> aggregate_by_vendor rows x y z) ∧
  (∀ v, v ∈ plan_vendor <$> aggregate_by_vendor rows x y z ↔
        ∃ r, r ∈ rows ∧ vendor r = v) ∧
  (∀ p, p ∈ aggregate_by_vendor rows x y z →
        p = fold_rows x y z (rows_of (plan_vendor p) rows)
              (new_plan (plan_vendor p))) ∧
  (∀ raw r, read_record raw = Some r →
        vendor r = PyStr.strip (default "" (raw_vendor raw))).
Proof.
  destruct (aggregate_vendors x y z rows) as [Hnd Hiff].
  split_and!; [done | done | |].
  - intros p Hp. by apply aggregate_plan_fold.
  - intros raw r. unfold read_record.
    destruct (raw_start raw); [|done].
    repeat case_decide; try done. by intros [= <-].
Qed.

(** C2, as stated, fails: two rows whose vendor names differ only in
    letter case normalize to the same name and still get two plans. *)
Lemma vendor_case_not_folded :
  normalize (vendor sale_row) = normalize (vendor lower_case_row) ∧
  aggregate_by_vendor [sale_row; lower_case_row] 5 15 5 =
    [ mkPlan "Acme" ["11"] (Some 739042) (Some 739057) None None
        (Some 739047) (Some 739057) None None;
      mkPlan "acme" ["12"] (Some 739035) (Some 739040) None None
        (Some 739040) (Some 739040) None None ].
Proof. split; reflexivity. Qed.

(** *** The scenarios of the design document *)

(** Scenario A: a sale from 2024-06-10 to 2024-06-20 with [x = 5] shows
    from 2024-06-05, so it should exist on 2024-06-06; the dates to
    publish are the real ones. *)
Example scenario_A :
  ∃ p, aggregate_by_vendor [sale_row] 5 15 5 = [p] ∧
       sale_display_start p = Some 739042 ∧
       sale_should_exist p 739043 = true ∧
       sale_real_start p = Some 739047 ∧ sale_real_end p = Some 739057.
Proof. eexists. split; [reflexivity|]. by split_and!. Qed.

(** Scenario B: a price increase from 2024-06-10 with no end,
    [y = 15], [z = 5]: shown from 2024-05-26 to 2024-06-15, it should
    exist on 2024-06-12, with a published start and no published end. *)
Example scenario_B :
  aggregate_by_vendor [open_pi_row] 5 15 5 = [acme_pi_plan] ∧
  pi_should_exist acme_pi_plan 739049 = true ∧
  pi_real_start acme_pi_plan = Some 739047 ∧
  pi_real_end acme_pi_plan = None.
Proof. by split_and!. Qed.

(** Scenario D: the day after the sale's display end it should no longer
    exist. *)
Example scenario_D :
  sale_display_end acme_plan = Some 739057 ∧
  sale_should_exist acme_plan 739057 = true ∧
  sale_should_exist acme_plan (739057 + 1) = false.
Proof. by split_and!. Qed.

(** ** The GraphQL client *)

(** An answer with a status outside the transient set, below 400, whose
    body is a dict with a truthy [errors] field sends the loop to its
    next turn like any other exception. *)
Lemma graphql_attempt_errors attempt r fields errors :
  transient_status (status_code r) = false →
  status_code r < 400 →
  json_body r = Some (JObj fields) →
  fields_get fields "errors" = Some errors →
  truthy errors = true →
  graphql_attempt attempt (HttpResponse r) =
    Again (GraphQLErrors errors) (10 + Z.of_nat attempt * 10).
Proof.
  intros Ht Hs Hb Hf He. unfold graphql_attempt, graphql_checked.
  rewrite Ht. unfold raise_for_status, resp_json.
  assert ((400 <=? status_code r) = false) as -> by (apply Z.leb_gt; lia).
  rewrite Hb. cbn. rewrite Hf. cbn. by rewrite He.
Qed.

(** The events of a call that returns: one POST per attempt, and the
    attempt that returns is the last. *)
Lemma graphql_loop_posts net attempt remaining last_err :
  (posts (graphql_loop net attempt remaining last_err).2 ≤ remaining)%nat.
Proof.
  revert attempt last_err.
  induction remaining as [|k IH]; intros attempt last_err; [done|].
  cbn [graphql_loop]. destruct (graphql_attempt attempt (net attempt)).
  - cbn. lia.
  - specialize (IH (S attempt) (Some last_err0)).
    destruct (graphql_loop net (S attempt) k (Some last_err0)) as [res evs].
    cbn in *. lia.
Qed.

(** When every attempt ends in the handler or in [continue], the call
    makes all its POSTs and raises with the last error. *)
Lemma graphql_loop_exhausted net attempt remaining last_err :
  (∀ n, (attempt ≤ n < attempt + remaining)%nat →
        ∃ e t, graphql_attempt n (net n) = Again e t) →
  posts (graphql_loop net attempt remaining last_err).2 = remaining ∧
  ∃ e, (graphql_loop net attempt remaining last_err).1 =
         Raise (GraphQLFailedAfterRetries e) ∧
       (remaining ≠ O → ∃ e' t,
          e = Some e' ∧
          graphql_attempt (attempt + remaining - 1)
            (net (attempt + remaining - 1)%nat) = Again e' t).
Proof.
  revert attempt last_err.
  induction remaining as [|k IH]; intros attempt last_err Hall.
  - split; [done|]. exists last_err. split; [done|]. done.
  - cbn [graphql_loop].
    destruct (Hall attempt) as (e & t & Hatt); [lia|]. rewrite Hatt.
    destruct k as [|k].
    + cbn. split; [done|]. exists (Some e). split; [done|]. intros _.
      exists e, t. split; [done|].
      by replace (attempt + 1 - 1)%nat with attempt by lia.
    + destruct (IH (S attempt) (Some e)) as (Hposts & e1 & Hres & Hlast).
      { intros n Hn. apply Hall. lia. }
      destruct (graphql_loop net (S attempt) (S k) (Some e)) as [res evs].
      cbn in Hposts, Hres. cbn [fst snd].
      split; [cbn; lia|]. exists e1. split; [done|]. intros _.
      destruct Hlast as (e' & t' & -> & Hatt'); [done|].
      exists e', t'. split; [done|].
      by replace (attempt + S (S k) - 1)%nat
        with (S attempt + S k - 1)%nat by lia.
Qed.

(** Transport failures and the transient statuses are retried up to the
    attempt count. *)
Lemma graphql_retries_transient net retries :
  (∀ n, (n < retries)%nat →
        net n = HttpRaises ∨
        ∃ r, net n = HttpResponse r ∧ transient_status (status_code r) = true) →
  posts (graphql net retries).2 = retries ∧
  ∃ e, (graphql net retries).1 = Raise (GraphQLFailedAfterRetries e).
Proof.
  intros Hall. unfold graphql.
  destruct (graphql_loop_exhausted net 0 retries None) as (Hp & e & He & _).
  - intros n Hn. destruct (Hall n) as [->|(r & -> & Ht)]; [lia| |].
    + by eexists _, _.
    + unfold graphql_attempt. rewrite Ht. by eexists _, _.
  - split; [done|]. by exists e.
Qed.

(** C1.  The claim fails on the code at its first half.  A response that
    parses and carries an [errors] field does not end the call: the
    [raise] sits inside the [try] whose handler retries, so the next
    attempt is made after the usual delay.  Here the first answer
    carries [errors] and the second does not: the call posts twice and
    returns the second answer, raising nothing.  When every answer
    carries [errors], all four attempts are made before the error
    surfaces, wrapped as the last error of a call that failed after
    retries. *)
Theorem graphql_errors_payload_is_retried :
  graphql errors_then_data 4 =
    (Ok data_body, [EvPost 0; EvSleep 10; EvPost 1]) ∧
  graphql (λ _, HttpResponse errors_response) 4 =
    (Raise (GraphQLFailedAfterRetries
              (Some (GraphQLErrors
                       (JArr [JObj [("message", JStr "Field does not exist")]])))),
     [EvPost 0; EvSleep 10; EvPost 1; EvSleep 20;
      EvPost 2; EvSleep 30; EvPost 3; EvSleep 40]).
Proof. split; reflexivity. Qed.

(** ** The count primitives and the dry run *)

Section CountFacts.

Variable int_of_str : string → option Z.
Variable http_get : list count_request → count_request → http_outcome.
Variable today : date.

Lemma count_or_zero_raise o e :
  count_checked int_of_str o = Raise e → count_or_zero int_of_str o = 0.
Proof. unfold count_or_zero. by intros ->. Qed.

Lemma count_or_zero_failed o :
  call_failed o = true → count_or_zero int_of_str o = 0.
Proof.
  destruct o as [|r]; [done|]. cbn [call_failed]. intros H.
  unfold count_or_zero, count_checked, raise_for_status, resp_json.
  destruct ((400 <=? status_code r) && (status_code r <? 600)); [done|].
  cbn in H. apply bool_decide_eq_true in H. by rewrite H.
Qed.

#[local] Abbreviation step := (dry_run_vendor int_of_str http_get today).

(** One turn of the vendor loop, by whether the cache holds the key. *)
Lemma dry_run_vendor_hit st w n :
  product_cache st !! cache_key w = Some n →
  step st w =
    mkState (product_cache st) (sent_requests st)
            (vendor_results st ++ [result_of today w n]) (fetched_keys st).
Proof. intros H. unfold dry_run_vendor. by rewrite H. Qed.

Lemma dry_run_vendor_miss st w :
  product_cache st !! cache_key w = None →
  step st w =
    let '(n, sent) := dry_run_count int_of_str http_get w (sent_requests st) in
    mkState (<[cache_key w := n]> (product_cache st)) sent
            (vendor_results st ++ [result_of today w n])
            (fetched_keys st ++ [cache_key w]).
Proof.
  intros H. unfold dry_run_vendor. rewrite H.
  by destruct (dry_run_count int_of_str http_get w (sent_requests st)).
Qed.

(** After its turn a plan's key is cached, with the count its entry
    reports. *)
Lemma dry_run_vendor_result st w :
  ∃ n, product_cache (step st w) !! cache_key w = Some n ∧
       vendor_results (step st w) = vendor_results st ++ [result_of today w n].
Proof.
  destruct (product_cache st !! cache_key w) as [n|] eqn:Hk.
  - exists n. by rewrite (dry_run_vendor_hit st w n Hk).
  - rewrite (dry_run_vendor_miss st w Hk).
    destruct (dry_run_count int_of_str http_get w (sent_requests st))
      as [n sent].
    exists n. cbn. by rewrite lookup_insert_eq.
Qed.

(** A cached count is never replaced. *)
Lemma dry_run_vendor_cache_mono st w k n :
  product_cache st !! k = Some n → product_cache (step st w) !! k = Some n.
Proof.
  intros Hk. destruct (product_cache st !! cache_key w) as [m|] eqn:Hw.
  - by rewrite (dry_run_vendor_hit st w m Hw).
  - rewrite (dry_run_vendor_miss st w Hw).
    destruct (dry_run_count int_of_str http_get w (sent_requests st))
      as [m sent].
    cbn. rewrite lookup_insert_ne; [done|]. congruence.
Qed.

Lemma dry_run_fold_cache_mono plans st k n :
  product_cache st !! k = Some n →
  product_cache (fold_left step plans st) !! k = Some n.
Proof.
  revert st. induction plans as [|w plans IH]; intros st Hk; [done|].
  cbn [fold_left]. by apply IH, dry_run_vendor_cache_mono.
Qed.

Lemma fetched_once_step st w : fetched_once st → fetched_once (step st w).
Proof.
  intros [Hnd Hiff].
  destruct (product_cache st !! cache_key w) as [m|] eqn:Hw.
  - by rewrite (dry_run_vendor_hit st w m Hw).
  - rewrite (dry_run_vendor_miss st w Hw).
    destruct (dry_run_count int_of_str http_get w (sent_requests st))
      as [m sent].
    assert (cache_key w ∉ fetched_keys st) as Hfresh.
    { rewrite Hiff, Hw. by intros [? ?]. }
    split; cbn.
    + apply NoDup_app. split_and!; [done| |apply NoDup_singleton].
      intros k Hk Hk'%list_elem_of_singleton. by subst.
    + intros k. rewrite elem_of_app, list_elem_of_singleton, Hiff.
      destruct (decide (cache_key w = k)) as [<-|Hne].
      * rewrite lookup_insert_eq. naive_solver.
      * rewrite lookup_insert_ne by done. naive_solver.
Qed.

Lemma fetched_once_fold plans st :
  fetched_once st → fetched_once (fold_left step plans st).
Proof.
  revert st. induction plans as [|w plans IH]; intros st Hst; [done|].
  cbn [fold_left]. by apply IH, fetched_once_step.
Qed.

(** The entries the loop appends, one per plan and in order, each with
    the count the cache holds for the plan's key at the end. *)
Lemma dry_run_fold_results plans st :
  ∃ counts,
    vendor_results (fold_left step plans st) =
      vendor_results st ++ zip_with (result_of today) plans counts ∧
    Forall2 (λ w n,
      product_cache (fold_left step plans st) !! cache_key w = Some n)
      plans counts.
Proof.
  revert st. induction plans as [|w plans IH]; intros st.
  - exists []. split; [by rewrite app_nil_r | constructor].
  - cbn [fold_left].
    destruct (dry_run_vendor_result st w) as (n & Hn & Hres).
    destruct (IH (step st w)) as (counts & Hrs & Hall).
    exists (n :: counts). split.
    + rewrite Hrs, Hres. cbn. by rewrite <- (assoc_L (++)).
    + constructor; [|done]. by apply dry_run_fold_cache_mono.
Qed.

End CountFacts.

(** C7.  The two count primitives return a number whatever the call
    does, and that number is zero whenever the call fails: the request
    raises, the status is one that [raise_for_status] refuses, the body
    does not parse, or anything else in the guarded block raises.  An
    answer that reports a count of zero gives the same zero, so a caller
    cannot tell an empty scope from a failed call. *)
Theorem count_primitives_swallow_errors (int_of_str : string → option Z)
  (http_get : list count_request → count_request → http_outcome)
  (sent : list count_request) :
  (∀ cid,
     rest_count_products_in_collection int_of_str http_get cid sent =
       (count_or_zero int_of_str
          (http_get sent (CountInCollection (numeric_id_of cid))),
        sent ++ [CountInCollection (numeric_id_of cid)])) ∧
  (∀ v,
     rest_count_products_by_vendor int_of_str http_get v sent =
       (count_or_zero int_of_str (http_get sent (CountByVendor v)),
        sent ++ [CountByVendor v])) ∧
  (∀ o, call_failed o = true → count_or_zero int_of_str o = 0) ∧
  (∀ o e, count_checked int_of_str o = Raise e →
          count_or_zero int_of_str o = 0) ∧
  count_or_zero int_of_str
    (HttpResponse (mkResponse 200 "" (Some (JObj [("count", JInt 0)])))) = 0.
Proof.
  split_and!; try done.
  - apply count_or_zero_failed.
  - apply count_or_zero_raise.
Qed.

Lemma count_primitives_swallow_errors_witness :
  rest_count_products_by_vendor (λ _, None) sample_http_get "Acme" [] =
    (0, [CountByVendor "Acme"]) ∧
  rest_count_products_in_collection (λ _, None) sample_http_get
    "gid://shopify/Collection/11" [] = (7, [CountInCollection "11"]) ∧
  count_or_zero (λ _, None) HttpRaises = 0 ∧
  count_or_zero (λ _, None)
    (HttpResponse (mkResponse 200 "" (Some (JObj [("count", JNull)])))) = 0.
Proof.
  destruct (count_primitives_swallow_errors (λ _, None) sample_http_get [])
    as (Hcoll & Hvendor & Hfailed & Hraise & _).
  split_and!.
  - rewrite Hvendor. reflexivity.
  - rewrite Hcoll. reflexivity.
  - apply Hfailed. reflexivity.
  - apply (Hraise _ ConversionError). reflexivity.
Defined.

(** C8.  In a dry run over any list of plans: the loop reports one entry
    per plan, in order; the entry's [will_write] is the product count
    when some category has a payload (sale should exist and both real
    sale bounds are present, or price increase should exist and its real
    start is present) and zero otherwise; its [will_delete] is that same
    count when at least one category should not exist and zero
    otherwise.  The count is the one the cache holds under the plan's
    key; on a miss it is fetched through the count primitives (the sum
    over the plan's collection ids when it has some, the vendor count
    otherwise) and stored, on a hit no request is sent; and no key is
    fetched twice. *)
Theorem dry_run_estimates (int_of_str : string → option Z)
  (http_get : list count_request → count_request → http_outcome)
  (today : date) (plans : list VendorPlan) :
  let st := dry_run int_of_str http_get today plans in
  Forall2 (λ w res,
      res_vendor res = plan_vendor w ∧
      product_cache st !! cache_key w = Some (products_found res) ∧
      will_write res =
        (if payload_will_exist w today then products_found res else 0) ∧
      will_delete res =
        (if keys_will_delete w today then products_found res else 0))
    plans (vendor_results st) ∧
  NoDup (fetched_keys st) ∧
  (∀ k, k ∈ fetched_keys st ↔ is_Some (product_cache st !! k)) ∧
  (∀ w, payload_will_exist w today = true ↔
        (sale_should_exist w today = true ∧
         is_Some (sale_real_start w) ∧ is_Some (sale_real_end w)) ∨
        (pi_should_exist w today = true ∧ is_Some (pi_real_start w))) ∧
  (∀ w, keys_will_delete w today = true ↔
        sale_should_exist w today = false ∨ pi_should_exist w today = false) ∧
  (∀ st0 w n, product_cache st0 !! cache_key w = Some n →
     dry_run_vendor int_of_str http_get today st0 w =
       mkState (product_cache st0) (sent_requests st0)
         (vendor_results st0 ++ [result_of today w n]) (fetched_keys st0)) ∧
  (∀ st0 w, product_cache st0 !! cache_key w = None →
     dry_run_vendor int_of_str http_get today st0 w =
       let '(n, sent) :=
         (if has_collection_id w
          then sum_counts int_of_str http_get (collection_ids w) 0
          else rest_count_products_by_vendor int_of_str http_get
                 (plan_vendor w)) (sent_requests st0) in
       mkState (<[cache_key w := n]> (product_cache st0)) sent
         (vendor_results st0 ++ [result_of today w n])
         (fetched_keys st0 ++ [cache_key w])).
Proof.
  intros st. split_and!.
  - destruct (dry_run_fold_results int_of_str http_get today plans init_state)
      as (counts & Hres & Hall).
    subst st. unfold dry_run. rewrite Hres. cbn [vendor_results init_state app].
    clear Hres.
    generalize dependent
      (product_cache
         (fold_left (dry_run_vendor int_of_str http_get today) plans
            init_state)).
    intros cache Hall.
    induction Hall as [|w n ws counts Hn _ IH]; cbn.
    + constructor.
    + constructor; [|exact IH]. by split_and!.
  - apply (fetched_once_fold int_of_str http_get today plans init_state).
    split; [constructor|]. intros k. cbn. rewrite lookup_empty.
    split; [by intros ?%elem_of_nil | by intros [? ?]].
  - apply (fetched_once_fold int_of_str http_get today plans init_state).
    split; [constructor|]. intros k. cbn. rewrite lookup_empty.
    split; [by intros ?%elem_of_nil | by intros [? ?]].
  - intros w. unfold payload_will_exist.
    rewrite orb_true_iff, !andb_true_iff, !bool_decide_eq_true. tauto.
  - intros w. unfold keys_will_delete.
    rewrite orb_true_iff, !negb_true_iff. tauto.
  - intros st0 w n. apply dry_run_vendor_hit.
  - intros st0 w Hk.
    rewrite (dry_run_vendor_miss int_of_str http_get today st0 w Hk).
    unfold dry_run_count. by destruct (has_collection_id w).
Qed.

Lemma dry_run_estimates_witness :
  NoDup (fetched_keys
           (dry_run (λ _, None) sample_http_get 739049
              [acme_plan; acme_pi_plan; acme_plan])) ∧
  fetched_keys
    (dry_run (λ _, None) sample_http_get 739049
       [acme_plan; acme_pi_plan; acme_plan]) =
    ["Acme::collection_id::11"; "Acme::vendor::"] ∧
  sent_requests
    (dry_run (λ _, None) sample_http_get 739049
       [acme_plan; acme_pi_plan; acme_plan]) =
    [CountInCollection "11"; CountByVendor "Acme"] ∧
  vendor_results
    (dry_run (λ _, None) sample_http_get 739049
       [acme_plan; acme_pi_plan; acme_plan]) =
    [mkResult "Acme" true ["11"] 7 7 0;
     mkResult "Acme" false [] 0 0 0;
     mkResult "Acme" true ["11"] 7 7 0].
Proof.
  split.
  - exact (proj1 (proj2 (dry_run_estimates (λ _, None) sample_http_get 739049
                           [acme_plan; acme_pi_plan; acme_plan]))).
  - split_and!; vm_compute; reflexivity.
Defined.

(** ** Product-scope resolution *)

Lemma matching_ids_app target nodes1 nodes2 :
  matching_ids target (nodes1 ++ nodes2) =
  matching_ids target nodes1 ++ matching_ids target nodes2.
Proof. unfold matching_ids. by rewrite filter_app, fmap_app. Qed.

Lemma vendor_loop_spec target pages ids :
  vendor_loop target pages ids =
  match product_pages_error pages with
  | Some e => Raise e
  | None => Ok (ids ++ matching_ids target (product_pages_nodes pages))
  end.
Proof.
  revert ids. induction pages as [e|nodes|nodes rest IH]; intros ids;
    cbn [vendor_loop product_pages_error product_pages_nodes].
  - done.
  - done.
  - rewrite IH. destruct (product_pages_error rest); [done|].
    by rewrite matching_ids_app, (assoc_L (++)).
Qed.

Lemma collection_loop_spec pages ids :
  collection_loop pages ids =
  match collection_pages_error pages with
  | Some e => Raise e
  | None => Ok (ids ++ collection_pages_ids pages)
  end.
Proof.
  revert ids. induction pages as [e| |nodes|nodes rest IH]; intros ids;
    cbn [collection_loop collection_pages_error collection_pages_ids].
  - done.
  - by rewrite app_nil_r.
  - done.
  - rewrite IH. destruct (collection_pages_error rest); [done|].
    by rewrite (assoc_L (++)).
Qed.

(** [seen] mirrors [product_ids], which stays free of repetitions. *)
Lemma add_unseen_spec ids (seen : gset string) product_ids :
  (∀ pid, pid ∈ seen ↔ pid ∈ product_ids) → NoDup product_ids →
  (∀ pid, pid ∈ (add_unseen ids seen product_ids).1 ↔
          pid ∈ (add_unseen ids seen product_ids).2) ∧
  NoDup (add_unseen ids seen product_ids).2 ∧
  (∀ pid, pid ∈ (add_unseen ids seen product_ids).2 ↔
          pid ∈ product_ids ∨ pid ∈ ids).
Proof.
  revert seen product_ids.
  induction ids as [|i ids IH]; intros seen product_ids Hseen Hnd; cbn.
  - split_and!; [done | done |]. intros pid. rewrite elem_of_nil. tauto.
  - destruct (decide (i ∈ seen)) as [Hi|Hi].
    + destruct (IH seen product_ids Hseen Hnd) as (H1 & H2 & H3).
      split_and!; [done | done |]. intros pid.
      rewrite H3, elem_of_cons. apply Hseen in Hi. naive_solver.
    + destruct (IH ({[i]} ∪ seen) (product_ids ++ [i])) as (H1 & H2 & H3).
      * intros pid.
        rewrite elem_of_union, elem_of_singleton, elem_of_app,
          list_elem_of_singleton, Hseen. tauto.
      * apply NoDup_app. split_and!; [done| |apply NoDup_singleton].
        intros pid Hpid Heq%list_elem_of_singleton. subst.
        by apply Hi, Hseen.
      * split_and!; [done | done |]. intros pid.
        rewrite H3, elem_of_app, list_elem_of_singleton, elem_of_cons. tauto.
Qed.

Section ScopeFacts.

Variable collection_listing : string → collection_pages.

#[local] Abbreviation in_collection :=
  (list_product_ids_in_collection collection_listing).

Lemma collect_from_collections_spec cids (seen : gset string) product_ids out :
  (∀ pid, pid ∈ seen ↔ pid ∈ product_ids) → NoDup product_ids →
  collect_from_collections collection_listing cids seen product_ids = Ok out →
  NoDup out ∧
  ∀ pid, pid ∈ out ↔
         pid ∈ product_ids ∨
         ∃ cid l, cid ∈ cids ∧ in_collection cid = Ok l ∧ pid ∈ l.
Proof.
  revert seen product_ids.
  induction cids as [|cid cids IH]; intros seen product_ids Hseen Hnd; cbn.
  - intros [= <-]. split; [done|]. intros pid. split; [by left|].
    intros [?|(cid & l & Hcid & _)]; [done|]. by apply elem_of_nil in Hcid.
  - destruct (in_collection cid) as [l|e] eqn:Hl; cbn; [|done].
    destruct (add_unseen_spec l seen product_ids Hseen Hnd) as (H1 & H2 & H3).
    destruct (add_unseen l seen product_ids) as [seen' product_ids'].
    cbn in H1, H2, H3. intros Hout.
    destruct (IH seen' product_ids' H1 H2 Hout) as [Hnd' Hiff].
    split; [done|]. intros pid. rewrite Hiff, H3. split.
    + intros [[?|Hpid]|(cid' & l' & Hcid & Hl' & Hpid)].
      * by left.
      * right. exists cid, l. split_and!; [by left | done | done].
      * right. exists cid', l'. split_and!; [by right | done | done].
    + intros [?|(cid' & l' & Hcid & Hl' & Hpid)]; [by left; left|].
      apply elem_of_cons in Hcid as [->|Hcid].
      * left. right. congruence.
      * right. by exists cid', l'.
Qed.

Lemma collect_from_collections_total cids (seen : gset string) product_ids :
  (∀ cid, cid ∈ cids → ∃ l, in_collection cid = Ok l) →
  ∃ out,
    collect_from_collections collection_listing cids seen product_ids = Ok out.
Proof.
  revert seen product_ids.
  induction cids as [|cid cids IH]; intros seen product_ids Hall; cbn.
  - by eexists.
  - destruct (Hall cid) as [l ->]; [by left|]. cbn.
    destruct (add_unseen l seen product_ids) as [seen' product_ids'].
    apply IH. intros cid' Hcid'. apply Hall. by right.
Qed.

End ScopeFacts.

(** C9.  Product-scope resolution has a strict priority.  A plan with at
    least one collection id gets the products of its collections: each
    product listed for one of them, once (and the listing by vendor is
    not consulted).  Only a plan without collection ids gets the listing
    by vendor, which keeps, of the products the search returns, exactly
    those whose vendor field normalizes to the normalized vendor name.
    Either resolution returns as soon as the listings it reads answer
    without raising. *)
Theorem scope_resolution_priority
  (collection_listing : string → collection_pages)
  (products_listing : string → product_pages) (w : VendorPlan) :
  (collection_ids w ≠ [] →
     (∀ ids, scope_product_ids collection_listing products_listing w = Ok ids →
        NoDup ids ∧
        ∀ pid, pid ∈ ids ↔
               ∃ cid l, cid ∈ collection_ids w ∧
                        list_product_ids_in_collection collection_listing cid
                          = Ok l ∧
                        pid ∈ l) ∧
     ((∀ cid, cid ∈ collection_ids w →
         ∃ l, list_product_ids_in_collection collection_listing cid = Ok l) →
      ∃ ids, scope_product_ids collection_listing products_listing w = Ok ids))
  ∧
  (collection_ids w = [] →
     scope_product_ids collection_listing products_listing w =
       list_product_ids_by_vendor products_listing (plan_vendor w) ∧
     list_product_ids_by_vendor products_listing (plan_vendor w) =
       match product_pages_error
               (products_listing (vendor_query (plan_vendor w))) with
       | Some e => Raise e
       | None =>
           Ok (node_id <$>
                 filter (λ n, normalize (node_vendor n)
                              = normalize (plan_vendor w))
                   (product_pages_nodes
                      (products_listing (vendor_query (plan_vendor w)))))
       end).
Proof.
  split.
  - intros Hne. unfold scope_product_ids, has_collection_id.
    destruct (collection_ids w) as [|c cs] eqn:Hids; [done|]. split.
    + intros ids Hout.
      destruct (collect_from_collections_spec collection_listing (c :: cs)
                  ∅ [] ids) as [Hnd Hiff]; [set_solver | constructor | done |].
      split; [done|]. intros pid. rewrite Hiff. split; [|by right].
      intros [Hpid|?]; [|done]. by apply elem_of_nil in Hpid.
    + apply collect_from_collections_total.
  - intros Hnil. unfold scope_product_ids, has_collection_id. rewrite Hnil.
    split; [done|]. unfold list_product_ids_by_vendor.
    by rewrite vendor_loop_spec.
Qed.

Lemma scope_resolution_priority_witness :
  scope_product_ids sample_collection_listing sample_products_listing
    acme_pi_plan = Ok ["p9"; "p11"] ∧
  ∃ ids,
    scope_product_ids sample_collection_listing sample_products_listing
      two_collections_plan = Ok ids ∧
    ids = ["p1"; "p2"; "p3"; "p4"] ∧ NoDup ids.
Proof.
  split.
  - destruct (scope_resolution_priority sample_collection_listing
                sample_products_listing acme_pi_plan) as [_ Hvendor].
    destruct (Hvendor eq_refl) as [-> ->]. reflexivity.
  - destruct (scope_resolution_priority sample_collection_listing
                sample_products_listing two_collections_plan) as [Hcoll _].
    destruct Hcoll as [Hspec _]; [discriminate|].
    exists ["p1"; "p2"; "p3"; "p4"]. split; [reflexivity|]. split; [done|].
    apply (Hspec ["p1"; "p2"; "p3"; "p4"]). reflexivity.
Defined.


(** * Further properties of the code *)

(** ** Closed form of the aggregated bounds *)

Lemma min_of_spec l m :
  min_of l = Some m ↔ m ∈ l ∧ ∀ d, d ∈ l → m ≤ d.
Proof.
  revert m. induction l as [|a l IH]; intros m; cbn.
  - split; [done | by intros [?%elem_of_nil _]].
  - destruct (min_of l) as [m'|] eqn:Hm.
    + destruct (IH m') as [[Hin Hle] _]; [done|]. split.
      * intros [= <-]. split.
        -- destruct (Z.min_spec a m') as [[_ ->]|[_ ->]]; [by left | by right].
        -- intros d [->|Hd%Hle]%elem_of_cons; lia.
      * intros [Hin' Hle']. f_equal.
        assert (m ≤ a) by (apply Hle'; by left).
        assert (m ≤ m') by (apply Hle'; by right).
        apply elem_of_cons in Hin' as [->|Hm'%Hle]; lia.
    + assert (l = []) as -> by by destruct l.
      split.
      * intros [= <-]. split; [by left|].
        intros d [->|?%elem_of_nil]%elem_of_cons; [lia | done].
      * intros [[->|?%elem_of_nil]%elem_of_cons _]; done.
Qed.

Lemma max_of_spec l m :
  max_of l = Some m ↔ m ∈ l ∧ ∀ d, d ∈ l → d ≤ m.
Proof.
  revert m. induction l as [|a l IH]; intros m; cbn.
  - split; [done | by intros [?%elem_of_nil _]].
  - destruct (max_of l) as [m'|] eqn:Hm.
    + destruct (IH m') as [[Hin Hle] _]; [done|]. split.
      * intros [= <-]. split.
        -- destruct (Z.max_spec a m') as [[_ ->]|[_ ->]]; [by right | by left].
        -- intros d [->|Hd%Hle]%elem_of_cons; lia.
      * intros [Hin' Hle']. f_equal.
        assert (a ≤ m) by (apply Hle'; by left).
        assert (m' ≤ m) by (apply Hle'; by right).
        apply elem_of_cons in Hin' as [->|Hm'%Hle]; lia.
    + assert (l = []) as -> by by destruct l.
      split.
      * intros [= <-]. split; [by left|].
        intros d [->|?%elem_of_nil]%elem_of_cons; [lia | done].
      * intros [[->|?%elem_of_nil]%elem_of_cons _]; done.
Qed.

Section ClosedForm.

Variables x y z : Z.

(** A bound that every row either merges a date into by [min] or leaves
    alone ends as the least of the merged dates. *)
Lemma fold_rows_min_field (proj : VendorPlan → option date)
  (sel : RetailPromoRow → option date) :
  (∀ w r, proj (fold_row x y z w r) =
          match sel r with Some d => merge_min (proj w) d | None => proj w end) →
  ∀ rows w, proj w = None →
            proj (fold_rows x y z rows w) = min_of (omap sel rows).
Proof.
  intros Hstep rows.
  assert (∀ w, proj (fold_rows x y z rows w) =
               match proj w, min_of (omap sel rows) with
               | None, m => m
               | Some a, None => Some a
               | Some a, Some b => Some (Z.min a b)
               end) as Hgen.
  { induction rows as [|r rows IH]; intros w.
    - cbn. by destruct (proj w).
    - rewrite fold_rows_cons, IH, Hstep. cbn [omap list_omap].
      destruct (sel r) as [d|]; cbn [min_of]; [|done].
      unfold merge_min.
      destruct (proj w), (min_of (omap sel rows)); f_equal; lia. }
  intros w Hw. by rewrite Hgen, Hw.
Qed.

Lemma fold_rows_max_field (proj : VendorPlan → option date)
  (sel : RetailPromoRow → option date) :
  (∀ w r, proj (fold_row x y z w r) =
          match sel r with Some d => merge_max (proj w) d | None => proj w end) →
  ∀ rows w, proj w = None →
            proj (fold_rows x y z rows w) = max_of (omap sel rows).
Proof.
  intros Hstep rows.
  assert (∀ w, proj (fold_rows x y z rows w) =
               match proj w, max_of (omap sel rows) with
               | None, m => m
               | Some a, None => Some a
               | Some a, Some b => Some (Z.max a b)
               end) as Hgen.
  { induction rows as [|r rows IH]; intros w.
    - cbn. by destruct (proj w).
    - rewrite fold_rows_cons, IH, Hstep. cbn [omap list_omap].
      destruct (sel r) as [d|]; cbn [max_of]; [|done].
      unfold merge_max.
      destruct (proj w), (max_of (omap sel rows)); f_equal; lia. }
  intros w Hw. by rewrite Hgen, Hw.
Qed.

End ClosedForm.

Lemma omap_filter_fmap {A B} (P : A → Prop) `{!∀ a, Decision (P a)}
  (f : A → B) (l : list A) :
  omap (λ a, if decide (P a) then Some (f a) else None) l = f <$> filter P l.
Proof.
  induction l as [|a l IH]; [done|].
  cbn [omap list_omap]. rewrite filter_cons.
  destruct (decide (P a)); cbn; by rewrite IH.
Qed.

Lemma omap_filter_omap {A B} (P : A → Prop) `{!∀ a, Decision (P a)}
  (g : A → option B) (l : list A) :
  omap (λ a, if decide (P a) then g a else None) l = omap g (filter P l).
Proof.
  induction l as [|a l IH]; [done|].
  cbn [omap list_omap]. rewrite filter_cons.
  destruct (decide (P a)); cbn [omap list_omap]; by rewrite IH.
Qed.

(** How one row changes each of the eight bounds. *)
Ltac fold_row_field r :=
  destruct (entry_type_cases r) as [Hs|[Hp|[Hs Hp]]];
  [ rewrite fold_row_sale by done;
    rewrite ?(decide_True (P := is_sale r)) by done;
    rewrite ?(decide_False (P := is_price_increase r)) by (by apply sale_not_pi)
  | rewrite fold_row_pi by done;
    rewrite ?(decide_False (P := is_sale r))
      by (intros ?; by eapply sale_not_pi);
    rewrite ?(decide_True (P := is_price_increase r)) by done
  | rewrite fold_row_other by done;
    rewrite ?(decide_False (P := is_sale r)) by done;
    rewrite ?(decide_False (P := is_price_increase r)) by done ];
  cbn; try done.

Section FieldSteps.

Variables x y z : Z.

Lemma step_sale_display_start w r :
  sale_display_start (fold_row x y z w r) =
  match (if decide (is_sale r) then Some (start_date r - x) else None) with
  | Some d => merge_min (sale_display_start w) d
  | None => sale_display_start w
  end.
Proof. fold_row_field r. Qed.

Lemma step_sale_display_end w r :
  sale_display_end (fold_row x y z w r) =
  match (if decide (is_sale r) then Some (end_or_start r) else None) with
  | Some d => merge_max (sale_display_end w) d
  | None => sale_display_end w
  end.
Proof. fold_row_field r. Qed.

Lemma step_sale_real_start w r :
  sale_real_start (fold_row x y z w r) =
  match (if decide (is_sale r) then Some (start_date r) else None) with
  | Some d => merge_min (sale_real_start w) d
  | None => sale_real_start w
  end.
Proof. fold_row_field r. Qed.

Lemma step_sale_real_end w r :
  sale_real_end (fold_row x y z w r) =
  match (if decide (is_sale r) then Some (end_or_start r) else None) with
  | Some d => merge_max (sale_real_end w) d
  | None => sale_real_end w
  end.
Proof. fold_row_field r. Qed.

Lemma step_pi_display_start w r :
  pi_display_start (fold_row x y z w r) =
  match (if decide (is_price_increase r)
         then Some (start_date r - y) else None) with
  | Some d => merge_min (pi_display_start w) d
  | None => pi_display_start w
  end.
Proof. fold_row_field r. Qed.

Lemma step_pi_display_end w r :
  pi_display_end (fold_row x y z w r) =
  match (if decide (is_price_increase r)
         then Some (pi_display_end_of z r) else None) with
  | Some d => merge_max (pi_display_end w) d
  | None => pi_display_end w
  end.
Proof. fold_row_field r. Qed.

Lemma step_pi_real_start w r :
  pi_real_start (fold_row x y z w r) =
  match (if decide (is_price_increase r) then Some (start_date r) else None)
  with
  | Some d => merge_min (pi_real_start w) d
  | None => pi_real_start w
  end.
Proof. fold_row_field r. Qed.

Lemma step_pi_real_end w r :
  pi_real_end (fold_row x y z w r) =
  match (if decide (is_price_increase r) then end_date r else None) with
  | Some d => merge_max (pi_real_end w) d
  | None => pi_real_end w
  end.
Proof. fold_row_field r. Qed.

End FieldSteps.

(** The closed form of the sale bounds, shared by the statements below. *)
Lemma sale_bounds_closed_form (rows : list RetailPromoRow) (x y z : Z)
  (p : VendorPlan) :
  p ∈ aggregate_by_vendor rows x y z →
  sale_display_start p =
    min_of ((λ r, start_date r - x) <$> sale_rows (plan_vendor p) rows) ∧
  sale_display_end p =
    max_of (end_or_start <$> sale_rows (plan_vendor p) rows) ∧
  sale_real_start p =
    min_of (start_date <$> sale_rows (plan_vendor p) rows) ∧
  sale_real_end p =
    max_of (end_or_start <$> sale_rows (plan_vendor p) rows).
Proof.
  intros Hp. destruct (aggregate_plan_fold x y z rows p Hp) as [_ Heq].
  unfold sale_rows. rewrite <- !omap_filter_fmap.
  split_and!; rewrite Heq at 1.
  - apply (fold_rows_min_field x y z sale_display_start);
      [apply step_sale_display_start | done].
  - apply (fold_rows_max_field x y z sale_display_end);
      [apply step_sale_display_end | done].
  - apply (fold_rows_min_field x y z sale_real_start);
      [apply step_sale_real_start | done].
  - apply (fold_rows_max_field x y z sale_real_end);
      [apply step_sale_real_end | done].
Qed.

(** X1.  The four sale bounds of an aggregated plan in closed form, over
    the sale rows that carry the plan's vendor string: the display start
    is the least start minus [x], the real start the least start, and
    both ends are the greatest of the rows' ends, a row without end date
    counting with its start date.  With no sale row all four are
    [None]. *)
Theorem aggregated_sale_bounds (rows : list RetailPromoRow) (x y z : Z)
  (p : VendorPlan) :
  p ∈ aggregate_by_vendor rows x y z →
  sale_display_start p =
    min_of ((λ r, start_date r - x) <$> sale_rows (plan_vendor p) rows) ∧
  sale_display_end p =
    max_of (end_or_start <$> sale_rows (plan_vendor p) rows) ∧
  sale_real_start p =
    min_of (start_date <$> sale_rows (plan_vendor p) rows) ∧
  sale_real_end p =
    max_of (end_or_start <$> sale_rows (plan_vendor p) rows).
Proof. apply sale_bounds_closed_form. Qed.

Lemma aggregated_sale_bounds_witness :
  sale_display_start acme_plan = Some (739047 - 5) ∧
  sale_real_end acme_plan = max_of [739057].
Proof.
  assert (acme_plan ∈ aggregate_by_vendor [sale_row; open_pi_row] 5 15 5)
    as Hin.
  { apply list_elem_of_In. vm_compute. left. reflexivity. }
  destruct (aggregated_sale_bounds [sale_row; open_pi_row] 5 15 5
              acme_plan Hin) as (H1 & _ & _ & H4).
  split; [exact H1 | exact H4].
Defined.

(** The closed form of the price-increase bounds, shared likewise. *)
Lemma pi_bounds_closed_form (rows : list RetailPromoRow) (x y z : Z)
  (p : VendorPlan) :
  p ∈ aggregate_by_vendor rows x y z →
  pi_display_start p =
    min_of ((λ r, start_date r - y) <$> pi_rows (plan_vendor p) rows) ∧
  pi_display_end p =
    max_of (pi_display_end_of z <$> pi_rows (plan_vendor p) rows) ∧
  pi_real_start p =
    min_of (start_date <$> pi_rows (plan_vendor p) rows) ∧
  pi_real_end p =
    max_of (omap end_date (pi_rows (plan_vendor p) rows)).
Proof.
  intros Hp. destruct (aggregate_plan_fold x y z rows p Hp) as [_ Heq].
  unfold pi_rows. rewrite <- !omap_filter_fmap, <- omap_filter_omap.
  split_and!; rewrite Heq at 1.
  - apply (fold_rows_min_field x y z pi_display_start);
      [apply step_pi_display_start | done].
  - apply (fold_rows_max_field x y z pi_display_end);
      [apply step_pi_display_end | done].
  - apply (fold_rows_min_field x y z pi_real_start);
      [apply step_pi_real_start | done].
  - apply (fold_rows_max_field x y z pi_real_end);
      [apply step_pi_real_end | done].
Qed.

(** X2.  The four price-increase bounds of an aggregated plan in closed
    form, over the price-increase rows that carry the plan's vendor
    string: the display start is the least start minus [y], the real
    start the least start, the display end the greatest of the rows'
    display ends (end date, else start plus [z]), and the real end the
    greatest of the end dates that are present. *)
Theorem aggregated_pi_bounds (rows : list RetailPromoRow) (x y z : Z)
  (p : VendorPlan) :
  p ∈ aggregate_by_vendor rows x y z →
  pi_display_start p =
    min_of ((λ r, start_date r - y) <$> pi_rows (plan_vendor p) rows) ∧
  pi_display_end p =
    max_of (pi_display_end_of z <$> pi_rows (plan_vendor p) rows) ∧
  pi_real_start p =
    min_of (start_date <$> pi_rows (plan_vendor p) rows) ∧
  pi_real_end p =
    max_of (omap end_date (pi_rows (plan_vendor p) rows)).
Proof. apply pi_bounds_closed_form. Qed.

Lemma aggregated_pi_bounds_witness :
  pi_display_end acme_plan = Some (739047 + 5) ∧ pi_real_end acme_plan = None.
Proof.
  assert (acme_plan ∈ aggregate_by_vendor [sale_row; open_pi_row] 5 15 5)
    as Hin.
  { apply list_elem_of_In. vm_compute. left. reflexivity. }
  destruct (aggregated_pi_bounds [sale_row; open_pi_row] 5 15 5
              acme_plan Hin) as (_ & H2 & _ & H4).
  split; [exact H2 | exact H4].
Defined.

(** ** Invariants of aggregated plans *)

Lemma min_of_elem l d : d ∈ l → ∃ m, min_of l = Some m ∧ m ≤ d.
Proof.
  intros Hd. destruct (min_of l) as [m|] eqn:Hm.
  - exists m. split; [done|]. by apply min_of_spec in Hm as [_ Hle]; apply Hle.
  - destruct l; [by apply elem_of_nil in Hd | done].
Qed.

Lemma max_of_elem l d : d ∈ l → ∃ m, max_of l = Some m ∧ d ≤ m.
Proof.
  intros Hd. destruct (max_of l) as [m|] eqn:Hm.
  - exists m. split; [done|]. by apply max_of_spec in Hm as [_ Hle]; apply Hle.
  - destruct l; [by apply elem_of_nil in Hd | done].
Qed.

Lemma min_of_None l : min_of l = None ↔ l = [].
Proof. by destruct l. Qed.

Lemma max_of_None l : max_of l = None ↔ l = [].
Proof. by destruct l. Qed.

Lemma min_of_shift (c : Z) l :
  min_of ((λ d, d - c) <$> l) = (λ d, d - c) <$> min_of l.
Proof.
  induction l as [|a l IH]; [done|]. cbn [fmap list_fmap min_of].
  change (list_fmap _ _ (λ d, d - c) l) with ((λ d, d - c) <$> l).
  rewrite IH. destruct (min_of l); cbn; f_equal; lia.
Qed.

(** X3.  In every aggregated plan the display window is tied to the real
    one: the sale display start is the real start minus [x] and the sale
    display end is the real end; the price-increase display start is the
    real start minus [y], and a real price-increase end, when there is
    one, is never later than the display end. *)
Theorem display_window_follows_real_window (rows : list RetailPromoRow)
  (x y z : Z) (p : VendorPlan) :
  p ∈ aggregate_by_vendor rows x y z →
  sale_display_start p = (λ d, d - x) <$> sale_real_start p ∧
  sale_display_end p = sale_real_end p ∧
  pi_display_start p = (λ d, d - y) <$> pi_real_start p ∧
  (∀ e, pi_real_end p = Some e → ∃ d, pi_display_end p = Some d ∧ e ≤ d).
Proof.
  intros Hp.
  destruct (sale_bounds_closed_form rows x y z p Hp) as (S1 & S2 & S3 & S4).
  destruct (pi_bounds_closed_form rows x y z p Hp) as (P1 & P2 & P3 & P4).
  split_and!.
  - rewrite S1, S3, <- min_of_shift, <- list_fmap_compose. done.
  - by rewrite S2, S4.
  - rewrite P1, P3, <- min_of_shift, <- list_fmap_compose. done.
  - intros e He. rewrite P4 in He. rewrite P2.
    apply max_of_spec in He as [Hin _].
    apply list_elem_of_omap in Hin as (r & Hr & Hend).
    destruct (max_of_elem (pi_display_end_of z <$> pi_rows (plan_vendor p) rows)
                e) as (d & Hd & Hle); [|by exists d].
    apply list_elem_of_fmap. exists r. split; [|done].
    unfold pi_display_end_of. by rewrite Hend.
Qed.

Lemma display_window_follows_real_window_witness :
  sale_display_start acme_plan = Some (739047 - 5) ∧
  pi_display_start acme_plan = Some (739047 - 15).
Proof.
  assert (acme_plan ∈ aggregate_by_vendor [sale_row; open_pi_row] 5 15 5)
    as Hin.
  { apply list_elem_of_In. vm_compute. left. reflexivity. }
  destruct (display_window_follows_real_window [sale_row; open_pi_row]
              5 15 5 acme_plan Hin) as (H1 & _ & H3 & _).
  split; [exact H1 | exact H3].
Defined.

(** X4.  In an aggregated plan the bounds of a category come together:
    the four sale bounds are all present when the vendor has a sale row
    and all absent otherwise, and likewise the price-increase display
    bounds and real start.  Hence the guards on the real dates never
    block a write: a payload exists exactly when some category should
    exist. *)
Theorem category_bounds_come_together (rows : list RetailPromoRow)
  (x y z : Z) (p : VendorPlan) (today : date) :
  p ∈ aggregate_by_vendor rows x y z →
  (sale_rows (plan_vendor p) rows ≠ [] →
     is_Some (sale_display_start p) ∧ is_Some (sale_display_end p) ∧
     is_Some (sale_real_start p) ∧ is_Some (sale_real_end p)) ∧
  (sale_rows (plan_vendor p) rows = [] →
     sale_display_start p = None ∧ sale_display_end p = None ∧
     sale_real_start p = None ∧ sale_real_end p = None) ∧
  (pi_rows (plan_vendor p) rows ≠ [] →
     is_Some (pi_display_start p) ∧ is_Some (pi_display_end p) ∧
     is_Some (pi_real_start p)) ∧
  (pi_rows (plan_vendor p) rows = [] →
     pi_display_start p = None ∧ pi_display_end p = None ∧
     pi_real_start p = None ∧ pi_real_end p = None) ∧
  payload_will_exist p today =
    sale_should_exist p today || pi_should_exist p today.
Proof.
  intros Hp.
  destruct (sale_bounds_closed_form rows x y z p Hp) as (S1 & S2 & S3 & S4).
  destruct (pi_bounds_closed_form rows x y z p Hp) as (P1 & P2 & P3 & P4).
  assert (∀ (f : RetailPromoRow → date) l, l ≠ [] → is_Some (min_of (f <$> l)))
    as Hmin by (intros f [|a l] ?; [done | by eexists]).
  assert (∀ (f : RetailPromoRow → date) l, l ≠ [] → is_Some (max_of (f <$> l)))
    as Hmax by (intros f [|a l] ?; [done | by eexists]).
  split_and!.
  - intros HS. rewrite S1, S2, S3, S4. split_and!; by (apply Hmin || apply Hmax).
  - intros HS. by rewrite S1, S2, S3, S4, HS.
  - intros HP. rewrite P1, P2, P3. split_and!; by (apply Hmin || apply Hmax).
  - intros HP. by rewrite P1, P2, P3, P4, HP.
  - unfold payload_will_exist, sale_should_exist, pi_should_exist.
    rewrite S1, S2, S3, S4, P1, P2, P3.
    destruct (sale_rows (plan_vendor p) rows) as [|s ss],
             (pi_rows (plan_vendor p) rows) as [|q qs]; cbn;
      rewrite ?andb_true_r, ?orb_false_r; done.
Qed.

Lemma category_bounds_come_together_witness :
  payload_will_exist acme_plan 739049 =
    sale_should_exist acme_plan 739049 || pi_should_exist acme_plan 739049.
Proof.
  assert (acme_plan ∈ aggregate_by_vendor [sale_row; open_pi_row] 5 15 5)
    as Hin.
  { apply list_elem_of_In. vm_compute. left. reflexivity. }
  exact (proj2 (proj2 (proj2 (proj2
    (category_bounds_come_together [sale_row; open_pi_row] 5 15 5
       acme_plan 739049 Hin))))).
Defined.

(** X5.  The plan window of a category covers the display window of each
    of its rows: on every day inside the display window the window
    calculator gives a row, the category of that row's vendor should
    exist. *)
Theorem row_window_inside_plan_window (rows : list RetailPromoRow)
  (x y z : Z) (p : VendorPlan) (r : RetailPromoRow) (today : date) :
  p ∈ aggregate_by_vendor rows x y z →
  r ∈ rows → vendor r = plan_vendor p →
  (compute_display_window r x y z).1 ≤ today ≤
    (compute_display_window r x y z).2 →
  (is_sale r → sale_should_exist p today = true) ∧
  (is_price_increase r → pi_should_exist p today = true).
Proof.
  intros Hp Hr Hv Hwin.
  destruct (sale_bounds_closed_form rows x y z p Hp) as (S1 & S2 & _ & _).
  destruct (pi_bounds_closed_form rows x y z p Hp) as (P1 & P2 & _ & _).
  split.
  - intros Hs.
    assert (compute_display_window r x y z =
            (start_date r - x, end_or_start r)) as Hw.
    { unfold compute_display_window. unfold is_sale in Hs.
      by destruct (decide (normalize (entry_type r) = "sale")). }
    rewrite Hw in Hwin. cbn in Hwin.
    assert (r ∈ sale_rows (plan_vendor p) rows) as Hin.
    { unfold sale_rows. apply list_elem_of_filter. split; [done|].
      by apply elem_of_rows_of. }
    destruct (min_of_elem ((λ r, start_date r - x)
                <$> sale_rows (plan_vendor p) rows) (start_date r - x))
      as (m & Hm & Hle).
    { apply list_elem_of_fmap. by exists r. }
    destruct (max_of_elem (end_or_start <$> sale_rows (plan_vendor p) rows)
                (end_or_start r)) as (M & HM & Hge).
    { apply list_elem_of_fmap. by exists r. }
    unfold sale_should_exist. rewrite S1, S2, Hm, HM.
    apply andb_true_iff. split; apply Z.leb_le; lia.
  - intros Hpi.
    assert (compute_display_window r x y z =
            (start_date r - y, pi_display_end_of z r)) as Hw.
    { unfold compute_display_window. unfold is_price_increase in Hpi.
      destruct (decide (normalize (entry_type r) = "sale")) as [E|_];
        [rewrite Hpi in E; discriminate|].
      by destruct (decide (normalize (entry_type r) = "price increase")). }
    rewrite Hw in Hwin. cbn in Hwin.
    assert (r ∈ pi_rows (plan_vendor p) rows) as Hin.
    { unfold pi_rows. apply list_elem_of_filter. split; [done|].
      by apply elem_of_rows_of. }
    destruct (min_of_elem ((λ r, start_date r - y)
                <$> pi_rows (plan_vendor p) rows) (start_date r - y))
      as (m & Hm & Hle).
    { apply list_elem_of_fmap. by exists r. }
    destruct (max_of_elem (pi_display_end_of z <$> pi_rows (plan_vendor p) rows)
                (pi_display_end_of z r)) as (M & HM & Hge).
    { apply list_elem_of_fmap. by exists r. }
    unfold pi_should_exist. rewrite P1, P2, Hm, HM.
    apply andb_true_iff. split; apply Z.leb_le; lia.
Qed.

Lemma row_window_inside_plan_window_witness :
  pi_should_exist acme_plan 739049 = true.
Proof.
  apply (row_window_inside_plan_window [sale_row; open_pi_row] 5 15 5
           acme_plan open_pi_row 739049).
  - apply list_elem_of_In. vm_compute. left. reflexivity.
  - apply list_elem_of_In. right. left. reflexivity.
  - reflexivity.
  - vm_compute. split; discriminate.
  - reflexivity.
Defined.


(** ** Order of the plans and of their collection ids *)

Lemma first_seen_spec seen l :
  NoDup (first_seen seen l) ∧
  ∀ a, a ∈ first_seen seen l ↔ a ∈ l ∧ a ∉ seen.
Proof.
  revert seen. induction l as [|b l IH]; intros seen; cbn.
  - split; [constructor|]. intros a. rewrite elem_of_nil. tauto.
  - destruct (decide (b ∈ seen)) as [Hb|Hb].
    + destruct (IH seen) as [Hnd Hiff]. split; [done|]. intros a.
      rewrite Hiff, elem_of_cons. naive_solver.
    + destruct (IH (seen ++ [b])) as [Hnd Hiff]. split.
      * constructor; [|done]. rewrite Hiff, elem_of_app, list_elem_of_singleton.
        tauto.
      * intros a. rewrite !elem_of_cons, Hiff, elem_of_app,
          list_elem_of_singleton.
        destruct (decide (a = b)) as [->|Hne]; naive_solver.
Qed.

Lemma aggregate_fold_key_order x y z rows d :
  (fold_left (aggregate_step x y z) rows d).*1 =
  d.*1 ++ first_seen d.*1 (vendor <$> rows).
Proof.
  revert d. induction rows as [|r rows IH]; intros d.
  - cbn. by rewrite app_nil_r.
  - cbn [fold_left]. rewrite IH.
    assert ((aggregate_step x y z d r).*1 =
            if decide (vendor r ∈ d.*1) then d.*1 else d.*1 ++ [vendor r])
      as -> by apply dict_set_keys.
    rewrite fmap_cons. cbn [first_seen].
    destruct (decide (vendor r ∈ d.*1)); [done|].
    by rewrite <- (assoc_L (++)).
Qed.

(** X6.  The plans come out in the order in which their vendor strings
    first occur in the rows. *)
Theorem plans_in_first_seen_order (rows : list RetailPromoRow) (x y z : Z) :
  plan_vendor <$> aggregate_by_vendor rows x y z =
  first_seen [] (vendor <$> rows).
Proof.
  unfold aggregate_by_vendor.
  rewrite fmap_vendor_keys by apply aggregate_dict_vendor.
  unfold aggregate_dict. by rewrite aggregate_fold_key_order.
Qed.

Lemma add_collection_id_first_seen r ids :
  add_collection_id (collection_id r) ids =
  ids ++ first_seen ids (option_list (contributed_collection_id r)).
Proof.
  unfold add_collection_id, contributed_collection_id.
  destruct (collection_id r) as [c|]; cbn; [|by rewrite app_nil_r].
  destruct (decide (c = "")); cbn; [by rewrite app_nil_r|].
  destruct (decide (c ∈ ids)); [by rewrite app_nil_r | done].
Qed.

Lemma first_seen_app seen l1 l2 :
  first_seen seen (l1 ++ l2) =
  first_seen seen l1 ++ first_seen (seen ++ first_seen seen l1) l2.
Proof.
  revert seen. induction l1 as [|a l1 IH]; intros seen; cbn.
  - by rewrite app_nil_r.
  - destruct (decide (a ∈ seen)); [apply IH|].
    cbn. rewrite IH. by rewrite <- (assoc_L (++)).
Qed.

Lemma fold_row_collection_ids x y z w r :
  collection_ids (fold_row x y z w r) =
  add_collection_id (collection_id r) (collection_ids w).
Proof.
  destruct (entry_type_cases r) as [Hs|[Hp|[Hs Hp]]].
  - by rewrite fold_row_sale.
  - by rewrite fold_row_pi.
  - by rewrite fold_row_other.
Qed.

Lemma fold_rows_collection_ids x y z rows w :
  collection_ids (fold_rows x y z rows w) =
  collection_ids w ++
  first_seen (collection_ids w) (omap contributed_collection_id rows).
Proof.
  revert w. induction rows as [|r rows IH]; intros w.
  - cbn. by rewrite app_nil_r.
  - rewrite fold_rows_cons, IH, fold_row_collection_ids,
      add_collection_id_first_seen.
    cbn [omap list_omap].
    destruct (contributed_collection_id r) as [c|]; cbn.
    + destruct (decide (c ∈ collection_ids w)); cbn.
      * by rewrite app_nil_r.
      * by rewrite <- (assoc_L (++)).
    + by rewrite app_nil_r.
Qed.

(** X7.  The collection ids of an aggregated plan are the non-empty
    collection ids of the rows that carry its vendor string, each once,
    in the order of their first occurrence. *)
Theorem plan_collection_ids (rows : list RetailPromoRow) (x y z : Z)
  (p : VendorPlan) :
  p ∈ aggregate_by_vendor rows x y z →
  collection_ids p =
    first_seen [] (omap contributed_collection_id (rows_of (plan_vendor p) rows))
  ∧ NoDup (collection_ids p)
  ∧ "" ∉ collection_ids p.
Proof.
  intros Hp. destruct (aggregate_plan_fold x y z rows p Hp) as [_ Heq].
  assert (collection_ids p =
          first_seen [] (omap contributed_collection_id
                           (rows_of (plan_vendor p) rows))) as Hids.
  { rewrite Heq at 1. by rewrite fold_rows_collection_ids. }
  split; [done|]. rewrite Hids.
  destruct (first_seen_spec []
              (omap contributed_collection_id (rows_of (plan_vendor p) rows)))
    as [Hnd Hiff].
  split; [done|]. rewrite Hiff. intros [Hin _].
  apply list_elem_of_omap in Hin as (r & _ & Hc).
  unfold contributed_collection_id in Hc.
  destruct (collection_id r) as [c|]; [|done].
  destruct (decide (c = "")); [done|]. congruence.
Qed.

Lemma plan_collection_ids_witness :
  collection_ids acme_plan = ["11"] ∧ NoDup (collection_ids acme_plan).
Proof.
  assert (acme_plan ∈ aggregate_by_vendor [sale_row; open_pi_row] 5 15 5)
    as Hin.
  { apply list_elem_of_In. vm_compute. left. reflexivity. }
  destruct (plan_collection_ids [sale_row; open_pi_row] 5 15 5 acme_plan Hin)
    as (H1 & H2 & _).
  split; [exact H1 | exact H2].
Defined.


(** ** The retry loop of the GraphQL client *)

Lemma graphql_attempt_done attempt o data :
  graphql_attempt attempt o = Done data ↔ acceptable o data.
Proof.
  unfold acceptable. split.
  - unfold graphql_attempt. destruct o as [|r]; [done|].
    destruct (transient_status (status_code r)) eqn:Ht; [done|].
    unfold graphql_checked, raise_for_status, resp_json.
    destruct ((400 <=? status_code r) && (status_code r <? 600)) eqn:Hst;
      [done|].
    destruct (json_body r) as [v|] eqn:Hb; [|done]. cbn.
    destruct v as [| | | | |fields]; try done. cbn.
    destruct (truthy (default JNull (fields_get fields "errors"))) eqn:He;
      [done|].
    intros [= <-]. exists r, fields. split_and!; try done.
    apply andb_false_iff in Hst as [H%Z.leb_gt|H%Z.ltb_ge]; lia.
  - intros (r & fields & -> & Ht & Hst & Hb & -> & He).
    unfold graphql_attempt. rewrite Ht.
    unfold graphql_checked, raise_for_status, resp_json.
    assert ((400 <=? status_code r) && (status_code r <? 600) = false) as ->.
    { apply andb_false_iff.
      destruct (decide (400 ≤ status_code r)); [right | left].
      - apply Z.ltb_ge. lia.
      - apply Z.leb_gt. lia. }
    rewrite Hb. cbn. by rewrite He.
Qed.

Lemma graphql_loop_outcome net a remaining last_err :
  match graphql_loop net a remaining last_err with
  | (Ok data, evs) =>
      ∃ k, (a ≤ k < a + remaining)%nat ∧
           graphql_attempt k (net k) = Done data ∧
           (∀ n, (a ≤ n < k)%nat → ∃ e t, graphql_attempt n (net n) = Again e t) ∧
           posts evs = S (k - a)
  | (Raise e, evs) =>
      (∀ n, (a ≤ n < a + remaining)%nat →
            ∃ e' t, graphql_attempt n (net n) = Again e' t) ∧
      posts evs = remaining ∧
      ∃ l, e = GraphQLFailedAfterRetries l ∧
           (remaining = O → l = last_err) ∧
           (remaining ≠ O →
              ∃ e' t, l = Some e' ∧
                      graphql_attempt (a + remaining - 1)
                        (net (a + remaining - 1)%nat) = Again e' t)
  end.
Proof.
  revert a last_err.
  induction remaining as [|k IH]; intros a last_err; cbn [graphql_loop].
  - split_and!; [intros n Hn; lia | done |].
    exists last_err. split_and!; done.
  - destruct (graphql_attempt a (net a)) as [data|e t] eqn:Hatt.
    + exists a. split; [lia|]. split_and!; [done | intros n Hn; lia |].
      cbn. f_equal. lia.
    + specialize (IH (S a) (Some e)).
      destruct (graphql_loop net (S a) k (Some e)) as [[data|e1] evs].
      * destruct IH as (j & Hj & Hdone & Hbefore & Hposts).
        exists j. split; [lia|]. split_and!; [done | |].
        -- intros n Hn. destruct (decide (n = a)) as [->|Hne].
           ++ by exists e, t.
           ++ apply Hbefore. lia.
        -- unfold posts in *. cbn. rewrite Hposts. lia.
      * destruct IH as (Hall & Hposts & l & -> & Hzero & Hlast).
        split_and!.
        -- intros n Hn. destruct (decide (n = a)) as [->|Hne].
           ++ by exists e, t.
           ++ apply Hall. lia.
        -- unfold posts in *. cbn. by rewrite Hposts.
        -- exists l. split_and!; [done | done |]. intros _.
           destruct k as [|k].
           ++ rewrite Hzero by done. exists e, t. split; [done|].
              by replace (a + 1 - 1)%nat with a by lia.
           ++ destruct Hlast as (e' & t' & -> & Hatt'); [done|].
              exists e', t'. split; [done|].
              by replace (a + S (S k) - 1)%nat with (S a + S k - 1)%nat by lia.
Qed.

(** X8.  What a call of [graphql] comes to.  It returns the answer of the
    first attempt that is acceptable (status outside the transient set
    and outside 400-599, body a dict without truthy [errors]), every
    earlier attempt having been retried, and has then sent one POST per
    attempt made.  Otherwise every one of the [retries] attempts was
    retried, exactly [retries] POSTs were sent, and the exception is the
    one raised after the loop, carrying the error of the last attempt
    (none when [retries] is zero): no other exception leaves the
    call. *)
Theorem graphql_outcome (net : nat → http_outcome) (retries : nat) :
  match graphql net retries with
  | (Ok data, evs) =>
      ∃ k, (k < retries)%nat ∧ acceptable (net k) data ∧
           (∀ n, (n < k)%nat → ∃ e t, graphql_attempt n (net n) = Again e t) ∧
           posts evs = S k
  | (Raise e, evs) =>
      (∀ n, (n < retries)%nat →
            ∃ e' t, graphql_attempt n (net n) = Again e' t) ∧
      posts evs = retries ∧
      ∃ l, e = GraphQLFailedAfterRetries l ∧
           (retries = O → l = None) ∧
           (retries ≠ O →
              ∃ e' t, l = Some e' ∧
                      graphql_attempt (retries - 1) (net (retries - 1)%nat)
                        = Again e' t)
  end.
Proof.
  unfold graphql. pose proof (graphql_loop_outcome net 0 retries None) as H.
  destruct (graphql_loop net 0 retries None) as [[data|e] evs].
  - destruct H as (k & Hk & Hdone & Hbefore & Hposts).
    exists k. split_and!; [lia | by apply (graphql_attempt_done k) | |].
    + intros n Hn. apply Hbefore. lia.
    + rewrite Hposts. lia.
  - destruct H as (Hall & Hposts & l & -> & Hzero & Hlast).
    split_and!; [intros n Hn; apply Hall; lia | done |].
    exists l. split_and!; [done | done |]. intros Hne.
    destruct (Hlast Hne) as (e' & t' & -> & Hatt). by exists e', t'.
Qed.



(** X10.  Transport failures and the transient statuses (429, 500, 502,
    503, 504) are retried up to the attempt count: when each of the
    [retries] attempts meets one of them, the call sends [retries] POSTs
    and then raises the after-retries error. *)
Theorem transient_failures_use_all_attempts (net : nat → http_outcome)
  (retries : nat) :
  (∀ n, (n < retries)%nat →
        net n = HttpRaises ∨
        ∃ r, net n = HttpResponse r ∧
             status_code r ∈ [429; 500; 502; 503; 504]) →
  posts (graphql net retries).2 = retries ∧
  ∃ e, (graphql net retries).1 = Raise (GraphQLFailedAfterRetries e).
Proof.
  intros Hall. apply graphql_retries_transient.
  intros n Hn. destruct (Hall n Hn) as [?|(r & Hr & Hst)]; [by left|].
  right. exists r. split; [done|]. unfold transient_status.
  by apply bool_decide_eq_true.
Qed.

Lemma transient_failures_use_all_attempts_witness :
  posts (graphql (λ n, match n with
                       | O => HttpRaises
                       | S _ => HttpResponse (mkResponse 503 "busy" None)
                       end) 4).2 = 4%nat.
Proof.
  apply (transient_failures_use_all_attempts
           (λ n, match n with
                 | O => HttpRaises
                 | S _ => HttpResponse (mkResponse 503 "busy" None)
                 end) 4).
  intros [|n] _; [by left|]. right. eexists. split; [reflexivity|].
  cbn. set_solver.
Defined.

(** ** The product count of a scope, live and in a dry run *)



Lemma sum_counts_requests int_of_str http_get ids acc sent :
  (sum_counts int_of_str http_get ids acc sent).2 =
  sent ++ ((λ cid, CountInCollection (numeric_id_of cid)) <$> ids).
Proof.
  revert acc sent. induction ids as [|cid ids IH]; intros acc sent; cbn.
  - by rewrite app_nil_r.
  - unfold http_bind, rest_count_products_in_collection, send, http_ret. cbn.
    change (let '(a, sent') := ?p in ?f a sent') with (f p.1 p.2).
    rewrite IH. by rewrite <- (assoc_L (++)).
Qed.

(** X12.  The requests of a dry-run count.  A plan with collection ids
    sends one count request per collection id, in order, each for the
    numeric id of the collection, and no vendor request; a plan without
    sends the one vendor request.  When the remote's answer depends on
    the request alone, the count of a plan with collection ids is the
    sum of the counts of its collections: a product of two collections
    counts twice, where the count outside dry-run counts it once. *)
Theorem dry_run_count_requests (int_of_str : string → option Z)
  (http_get : list count_request → count_request → http_outcome)
  (w : VendorPlan) (sent : list count_request) :
  (dry_run_count int_of_str http_get w sent).2 =
    sent ++ (if has_collection_id w
             then (λ cid, CountInCollection (numeric_id_of cid))
                    <$> collection_ids w
             else [CountByVendor (plan_vendor w)]) ∧
  (∀ answer,
     (∀ sent' req, http_get sent' req = answer req) →
     (dry_run_count int_of_str http_get w sent).1 =
       if has_collection_id w
       then foldr Z.add 0
              ((λ cid, count_or_zero int_of_str
                         (answer (CountInCollection (numeric_id_of cid))))
                 <$> collection_ids w)
       else count_or_zero int_of_str (answer (CountByVendor (plan_vendor w)))).
Proof.
  unfold dry_run_count. destruct (has_collection_id w).
  - split; [apply sum_counts_requests|].
    intros answer Hanswer.
    assert (∀ ids acc sent0,
              (sum_counts int_of_str http_get ids acc sent0).1 =
              acc + foldr Z.add 0
                ((λ cid, count_or_zero int_of_str
                           (answer (CountInCollection (numeric_id_of cid))))
                   <$> ids)) as Hsum.
    { induction ids as [|cid ids IH]; intros acc sent0; cbn.
      - lia.
      - unfold http_bind, rest_count_products_in_collection, send, http_ret.
        cbn. rewrite IH, Hanswer. lia. }
    rewrite Hsum. lia.
  - split; [done|]. intros answer Hanswer.
    unfold rest_count_products_by_vendor, http_bind, send, http_ret. cbn.
    by rewrite Hanswer.
Qed.

Lemma dry_run_count_requests_witness :
  dry_run_count (λ _, None) sample_http_get two_collections_plan [] =
    (14, [CountInCollection "11"; CountInCollection "12"]).
Proof.
  destruct (dry_run_count_requests (λ _, None) sample_http_get
              two_collections_plan []) as [Hsent Hcount].
  specialize (Hcount (sample_http_get []) (λ _ _, eq_refl)).
  destruct (dry_run_count (λ _, None) sample_http_get two_collections_plan [])
    as [n sent]. cbn in Hsent, Hcount. by rewrite Hsent, Hcount.
Defined.

(** ** The reader and the collection identifiers *)

Lemma read_record_Some rec r :
  read_record rec = Some r →
  id r = raw_id rec ∧
  vendor r = PyStr.strip (default "" (raw_vendor rec)) ∧ vendor r ≠ "" ∧
  entry_type r = PyStr.strip (default "" (raw_entry_type rec)) ∧
  entry_type r ≠ "" ∧
  raw_start rec = Some (start_date r) ∧ end_date r = raw_end rec ∧
  collection_id r ≠ Some "".
Proof.
  unfold read_record. destruct (raw_start rec) as [s|]; [|done].
  repeat case_decide; try done. intros [= <-]. cbn.
  split_and!; try done.
  destruct (raw_collection_id rec) as [c|]; [|done].
  case_decide; [done|]. congruence.
Qed.

(** X13.  What the reader keeps.  A record is read exactly when, after
    stripping, its vendor and its entry type are not empty and its start
    date is present; a row read carries the record's id and dates, the
    stripped vendor and entry type, and a collection id that is never
    the empty string.  Hence every plan aggregated from the rows read has
    a non-empty vendor, the stripped vendor of a record whose start date
    is present, and no empty collection id. *)
Theorem reader_keeps_complete_records (raw : list RawRecord) (x y z : Z) :
  (∀ rec, is_Some (read_record rec) ↔
          PyStr.strip (default "" (raw_vendor rec)) ≠ "" ∧
          PyStr.strip (default "" (raw_entry_type rec)) ≠ "" ∧
          is_Some (raw_start rec)) ∧
  (∀ r, r ∈ read_records raw →
        ∃ rec, rec ∈ raw ∧ read_record rec = Some r ∧
               id r = raw_id rec ∧
               vendor r = PyStr.strip (default "" (raw_vendor rec)) ∧
               entry_type r = PyStr.strip (default "" (raw_entry_type rec)) ∧
               raw_start rec = Some (start_date r) ∧
               end_date r = raw_end rec ∧
               collection_id r ≠ Some "") ∧
  (∀ p, p ∈ aggregate_by_vendor (read_records raw) x y z →
        plan_vendor p ≠ "" ∧ ("" ∉ collection_ids p) ∧
        ∃ rec, rec ∈ raw ∧ is_Some (raw_start rec) ∧
               plan_vendor p = PyStr.strip (default "" (raw_vendor rec))).
Proof.
  assert (∀ r, r ∈ read_records raw →
            ∃ rec, rec ∈ raw ∧ read_record rec = Some r) as Hread.
  { intros r Hr. unfold read_records in Hr.
    apply list_elem_of_omap in Hr as (rec & Hrec & Hr). by exists rec. }
  split_and!.
  - intros rec. unfold read_record.
    destruct (raw_start rec) as [s|].
    + repeat case_decide; split; try done;
        try (intros (? & ? & ?); done); by intros [? ?].
    + split; [by intros [? ?] | by intros (_ & _ & [? ?])].
  - intros r Hr. destruct (Hread r Hr) as (rec & Hrec & Hsome).
    exists rec. destruct (read_record_Some rec r Hsome)
      as (? & ? & ? & ? & ? & ? & ? & ?). by split_and!.
  - intros p Hp.
    destruct (aggregate_vendors x y z (read_records raw)) as [_ Hiff].
    assert (plan_vendor p ∈ plan_vendor <$> aggregate_by_vendor
              (read_records raw) x y z) as Hv.
    { apply list_elem_of_fmap. by exists p. }
    apply Hiff in Hv as (r & Hr & Hvr).
    destruct (Hread r Hr) as (rec & Hrec & Hsome).
    destruct (read_record_Some rec r Hsome)
      as (_ & Hvendor & Hne & _ & _ & Hstart & _ & _).
    split_and!.
    + congruence.
    + destruct (aggregate_plan_fold x y z (read_records raw) p Hp) as [_ Heq].
      rewrite Heq, fold_rows_collection_ids. cbn [new_plan collection_ids app].
      destruct (first_seen_spec [] (omap contributed_collection_id
                  (rows_of (plan_vendor p) (read_records raw)))) as [_ Hfs].
      rewrite Hfs. intros [Hin _].
      apply list_elem_of_omap in Hin as (r' & _ & Hc).
      unfold contributed_collection_id in Hc.
      destruct (collection_id r') as [c|]; [|done].
      destruct (decide (c = "")); [done|]. congruence.
    + exists rec. split_and!; [done | by rewrite Hstart | congruence].
Qed.

Lemma reader_keeps_complete_records_witness :
  read_record blank_vendor_record = None ∧
  read_records [acme_record; blank_vendor_record] =
    [mkRow 1 "Acme" (Some "11") "Sale" 739047 (Some 739057)].
Proof.
  destruct (reader_keeps_complete_records [acme_record; blank_vendor_record]
              5 15 5) as (Hiff & _ & _).
  split; [|reflexivity].
  destruct (read_record blank_vendor_record) as [r|] eqn:Hr; [|done].
  assert (is_Some (read_record blank_vendor_record)) as Hs
    by (rewrite Hr; by eexists).
  apply Hiff in Hs as [Hv _]. exfalso. by apply Hv.
Defined.

Lemma after_last_slash_append s1 s2 :
  after_last_slash (s1 +:+ s2) =
  match after_last_slash s2 with
  | Some t => Some t
  | None => (λ t, t +:+ s2) <$> after_last_slash s1
  end.
Proof.
  induction s1 as [|ch s1 IH].
  - change ("" +:+ s2) with s2. by destruct (after_last_slash s2).
  - change (String ch s1 +:+ s2) with (String ch (s1 +:+ s2)).
    cbn [after_last_slash]. rewrite IH.
    destruct (after_last_slash s2); [done|].
    destruct (after_last_slash s1); [done|]. cbn.
    by destruct (decide (ch = slash)).
Qed.

Lemma after_last_slash_gid c :
  after_last_slash c = None →
  after_last_slash ("gid://shopify/Collection/" +:+ c) = Some c.
Proof. intros H. rewrite after_last_slash_append, H. reflexivity. Qed.

(** X14.  The two ways a collection id is turned into a request address
    the same collection.  For an id without surrounding whitespace that
    is a [gid://] identifier or contains no slash, the numeric id the
    REST count uses is the numeric id of the gid the GraphQL listing
    uses; and the gid of a gid is itself. *)
Theorem count_and_listing_address_same_collection (c : string) :
  PyStr.strip c = c →
  String.prefix "gid://" c = true ∨ after_last_slash c = None →
  numeric_id_of (to_collection_gid c) = numeric_id_of c ∧
  String.prefix "gid://" (to_collection_gid c) = true ∧
  (String.prefix "gid://" c = true → to_collection_gid c = c) ∧
  (String.prefix "gid://" c = false →
     to_collection_gid c = "gid://shopify/Collection/" +:+ c ∧
     numeric_id_of (to_collection_gid c) = c).
Proof.
  intros Hstrip Hshape. unfold to_collection_gid. rewrite Hstrip. cbn zeta.
  destruct (String.prefix "gid://" c) eqn:Hp.
  - by split_and!.
  - destruct Hshape as [?|Hslash]; [done|].
    assert (numeric_id_of ("gid://shopify/Collection/" +:+ c) = c) as Hnum.
    { unfold numeric_id_of, rsplit_last.
      rewrite (after_last_slash_gid c Hslash). done. }
    split_and!; try done.
    rewrite Hnum. unfold numeric_id_of. by rewrite Hp.
Qed.

Lemma count_and_listing_address_same_collection_witness :
  numeric_id_of (to_collection_gid "11") = "11" ∧
  to_collection_gid "gid://shopify/Collection/11"
    = "gid://shopify/Collection/11".
Proof.
  split.
  - destruct (count_and_listing_address_same_collection "11")
      as (_ & _ & _ & H); [reflexivity | by right |].
    by apply H.
  - destruct (count_and_listing_address_same_collection
                "gid://shopify/Collection/11") as (_ & _ & H & _);
      [reflexivity | by left |].
    by apply H.
Defined.


(** ** The payload and the deletions of one product *)

Ltac payload_cases w today :=
  unfold to_set, keys_to_check, payload_will_exist, keys_will_delete,
    real_bound, build_date_metafield, MF_NAMESPACE, MF_SALE_START,
    MF_SALE_END, MF_PI_START, MF_PI_END in *;
  destruct (sale_should_exist w today), (pi_should_exist w today),
    (sale_real_start w), (sale_real_end w), (pi_real_start w),
    (pi_real_end w); cbn in *.

(** X15.  What is written for a product comes from the real window
    only: every metafield of the payload belongs to the product, has
    namespace "custom" and type "date", and its value is the plan's real
    bound for its key.  No key is written twice, and no key is both
    written and looked up for deletion. *)
Theorem payload_publishes_real_window (w : VendorPlan) (today : date)
  (pid : string) :
  (∀ m, m ∈ to_set w today pid →
        mf_owner m = pid ∧ mf_namespace m = "custom" ∧ mf_type m = "date" ∧
        real_bound w (mf_key m) = Some (mf_value m)) ∧
  NoDup (mf_key <$> to_set w today pid) ∧
  (∀ k, k ∈ mf_key <$> to_set w today pid → k ∉ keys_to_check w today).
Proof.
  split_and!.
  - intros m Hm. payload_cases w today;
      repeat (apply elem_of_cons in Hm as [->|Hm]);
      try (by apply elem_of_nil in Hm); by split_and!.
  - payload_cases w today; repeat constructor;
      rewrite ?elem_of_cons, ?elem_of_nil; naive_solver.
  - intros k Hk. payload_cases w today;
      repeat (apply elem_of_cons in Hk as [->|Hk]);
      try (by apply elem_of_nil in Hk);
      rewrite ?elem_of_cons, ?elem_of_nil; naive_solver.
Qed.

(** X16.  The dry-run estimate asks the questions the live run acts on:
    [payload_will_exist] holds exactly when the payload of a product is
    not empty, and [keys_will_delete] exactly when some key is looked up
    for deletion.  Key by key: the two sale keys are written when the
    sale should exist and has both real bounds, and looked up for
    deletion when it should not exist; the price-increase start key
    likewise with the real start.  The price-increase end key is written
    only when there is a real end, so while the price increase should
    exist without a real end that key is neither written nor looked up:
    a value it already has on the product stays. *)
Theorem dry_run_matches_live_payload (w : VendorPlan) (today : date)
  (pid : string) :
  (payload_will_exist w today = true ↔ to_set w today pid ≠ []) ∧
  (keys_will_delete w today = true ↔ keys_to_check w today ≠ []) ∧
  (MF_SALE_START ∈ mf_key <$> to_set w today pid ↔
     sale_should_exist w today = true ∧
     is_Some (sale_real_start w) ∧ is_Some (sale_real_end w)) ∧
  (MF_PI_START ∈ mf_key <$> to_set w today pid ↔
     pi_should_exist w today = true ∧ is_Some (pi_real_start w)) ∧
  (MF_PI_END ∈ mf_key <$> to_set w today pid ↔
     pi_should_exist w today = true ∧
     is_Some (pi_real_start w) ∧ is_Some (pi_real_end w)) ∧
  (MF_SALE_START ∈ keys_to_check w today ↔ sale_should_exist w today = false) ∧
  (MF_PI_END ∈ keys_to_check w today ↔ pi_should_exist w today = false) ∧
  (pi_should_exist w today = true → pi_real_end w = None →
     (MF_PI_END ∉ mf_key <$> to_set w today pid) ∧
     (MF_PI_END ∉ keys_to_check w today)).
Proof.
  split_and!.
  - payload_cases w today; split; done.
  - payload_cases w today; split; done.
  - payload_cases w today; rewrite ?elem_of_cons, ?elem_of_nil;
      unfold is_Some; naive_solver.
  - payload_cases w today; rewrite ?elem_of_cons, ?elem_of_nil;
      unfold is_Some; naive_solver.
  - payload_cases w today; rewrite ?elem_of_cons, ?elem_of_nil;
      unfold is_Some; naive_solver.
  - payload_cases w today; rewrite ?elem_of_cons, ?elem_of_nil;
      naive_solver.
  - payload_cases w today; rewrite ?elem_of_cons, ?elem_of_nil;
      naive_solver.
  - intros Hpi Hend. payload_cases w today;
      rewrite ?elem_of_cons, ?elem_of_nil; naive_solver.
Qed.

Lemma dry_run_matches_live_payload_witness :
  to_set acme_plan 739049 "p1" =
    [mkMetafield "p1" "custom" "promo_sale_start_date" "date" 739047;
     mkMetafield "p1" "custom" "promo_sale_end_date" "date" 739057;
     mkMetafield "p1" "custom" "promo_pi_start_date" "date" 739047] ∧
  keys_to_check acme_plan 739049 = [] ∧
  "promo_pi_end_date" ∉ mf_key <$> to_set acme_plan 739049 "p1".
Proof.
  destruct (dry_run_matches_live_payload acme_plan 739049 "p1")
    as (_ & _ & _ & _ & _ & _ & _ & Hstale).
  split_and!; [reflexivity | reflexivity |].
  by apply Hstale.
Defined.
